(* Verification model of the StopSpotDataPipeline core:
   - src/src/tables/processed_days.py   (Processed_Days)
   - src/src/tables/table.py            (Table, the generic gateway)
   - src/src/tables/flagged_data.py     (Flagged_Data)
   - src/pipeline/src/interface/ArgInterface.py (ArgInterface)

   Python strings are modelled as Rocq strings of ASCII characters; Python
   exceptions that escape a method are explicit results. *)

From Stdlib Require Import ZArith String Ascii List Bool Lia.
From stdpp Require Import base gmap list strings.
Import ListNotations.

Open Scope Z_scope.

(* ===================================================================== *)
(* Python exceptions used by the modelled code                            *)
(* ===================================================================== *)

Inductive py_exn :=
  | ValueError
  | TypeError
  | OverflowError
  | AttributeError
  | KeyError.

(* ===================================================================== *)
(* Python's datetime.date / datetime.datetime                             *)
(* ===================================================================== *)

(* A calendar value is its proleptic Gregorian ordinal (date.toordinal()).
   [is_dt] tells a datetime.datetime (what strptime returns, always at
   midnight here) from a plain datetime.date: Python refuses to order a
   date against a datetime. *)
Record pydate := PyDate { ord : Z; is_dt : bool }.

(* date(9999, 12, 31).toordinal() *)
Definition MAXORDINAL : Z := 3652059.

Definition is_leap (y : Z) : bool :=
  (Z.eqb (y mod 4) 0 && negb (Z.eqb (y mod 100) 0)) || Z.eqb (y mod 400) 0.

Definition days_in_month (y m : Z) : Z :=
  match m with
  | 1 => 31 | 2 => if is_leap y then 29 else 28 | 3 => 31 | 4 => 30
  | 5 => 31 | 6 => 30 | 7 => 31 | 8 => 31 | 9 => 30 | 10 => 31
  | 11 => 30 | _ => 31
  end.

Definition days_before_year (y : Z) : Z :=
  let y1 := y - 1 in y1 * 365 + y1 / 4 - y1 / 100 + y1 / 400.

Definition days_before_month (y m : Z) : Z :=
  fold_right Z.add 0 (map (fun k => days_in_month y k)
                          (map Z.of_nat (seq 1 (Z.to_nat (m - 1))))).

(* datetime._ymd2ord *)
Definition ymd2ord (y m d : Z) : Z :=
  days_before_year y + days_before_month y m + d.

(* date(y, m, d) construction: ValueError outside the valid range. *)
Definition mk_date (y m d : Z) (dt : bool) : option pydate :=
  if (1 <=? y) && (y <=? 9999) && (1 <=? m) && (m <=? 12)
     && (1 <=? d) && (d <=? days_in_month y m)
  then Some (PyDate (ymd2ord y m d) dt) else None.

(* date < date: TypeError (None) when a date is compared with a datetime. *)
Definition date_lt (a b : pydate) : option bool :=
  if Bool.eqb (is_dt a) (is_dt b) then Some (ord a <? ord b) else None.

(* a += timedelta(days=1): OverflowError (None) past date.max. *)
Definition add_day (a : pydate) : option pydate :=
  if ord a <? MAXORDINAL then Some (PyDate (ord a + 1) (is_dt a)) else None.

(* --------------------------------------------------------------------- *)
(* strptime for the formats "%Y-%m-%d" and "%Y" (ASCII digits).          *)
(* _strptime matches the regex
     (?P<Y>\d\d\d\d)-(?P<m>1[0-2]|0[1-9]|[1-9])-(?P<d>3[01]|[12]\d|0[1-9]|[1-9]| [1-9])
   with re.match (alternatives tried in order, backtracking), then raises
   ValueError if unconverted data remains.                               *)
(* --------------------------------------------------------------------- *)

Definition digit_val (c : ascii) : option Z :=
  let n := Z.of_nat (nat_of_ascii c) in
  if (48 <=? n) && (n <=? 57) then Some (n - 48) else None.

Definition in_range (c : ascii) (lo hi : Z) : option Z :=
  match digit_val c with
  | Some v => if (lo <=? v) && (v <=? hi) then Some v else None
  | None => None
  end.

(* All ways a regex piece matches a prefix, in the order the regex engine
   tries them: (value, rest of the input). *)
Definition re_year (s : string) : list (Z * string) :=
  match s with
  | String a (String b (String c (String d r))) =>
      match digit_val a, digit_val b, digit_val c, digit_val d with
      | Some a', Some b', Some c', Some d' =>
          [(a' * 1000 + b' * 100 + c' * 10 + d', r)]
      | _, _, _, _ => []
      end
  | _ => []
  end.

Definition re_month (s : string) : list (Z * string) :=
  let alt1 := match s with
               | String a (String b r) =>
                   if Ascii.eqb a "1"%char then
                     match in_range b 0 2 with Some v => [(10 + v, r)] | None => [] end
                   else []
               | _ => [] end in
  let alt2 := match s with
               | String a (String b r) =>
                   if Ascii.eqb a "0"%char then
                     match in_range b 1 9 with Some v => [(v, r)] | None => [] end
                   else []
               | _ => [] end in
  let alt3 := match s with
               | String a r =>
                   match in_range a 1 9 with Some v => [(v, r)] | None => [] end
               | _ => [] end in
  alt1 ++ alt2 ++ alt3.

Definition re_day (s : string) : list (Z * string) :=
  let two (first : ascii -> option Z) (second : ascii -> option Z) :=
    match s with
    | String a (String b r) =>
        match first a, second b with
        | Some x, Some y => [(x * 10 + y, r)]
        | _, _ => []
        end
    | _ => [] end in
  let alt1 := two (fun a => in_range a 3 3) (fun b => in_range b 0 1) in
  let alt2 := two (fun a => in_range a 1 2) (fun b => in_range b 0 9) in
  let alt3 := two (fun a => in_range a 0 0) (fun b => in_range b 1 9) in
  let alt4 := match s with
               | String a r =>
                   match in_range a 1 9 with Some v => [(v, r)] | None => [] end
               | _ => [] end in
  let alt5 := match s with
               | String sp (String a r) =>
                   if Ascii.eqb sp " "%char then
                     match in_range a 1 9 with Some v => [(v, r)] | None => [] end
                   else []
               | _ => [] end in
  alt1 ++ alt2 ++ alt3 ++ alt4 ++ alt5.

Definition re_dash (s : string) : list (unit * string) :=
  match s with
  | String a r => if Ascii.eqb a "-"%char then [(tt, r)] else []
  | _ => []
  end.

(* re.match of the whole "%Y-%m-%d" pattern: the first successful path. *)
Definition re_ymd (s : string) : option (Z * Z * Z * string) :=
  head (y_r ← re_year s;
        u1 ← re_dash y_r.2;
        m_r ← re_month u1.2;
        u2 ← re_dash m_r.2;
        d_r ← re_day u2.2;
        [(y_r.1, m_r.1, d_r.1, d_r.2)]).

(* datetime.datetime.strptime(s, "%Y-%m-%d"); None is ValueError. *)
Definition strptime_ymd (s : string) : option pydate :=
  match re_ymd s with
  | Some (y, m, d, EmptyString) => mk_date y m d true
  | _ => None
  end.

(* datetime.strptime(s, "%Y"); None is ValueError. *)
Definition strptime_y (s : string) : option pydate :=
  match head (re_year s) with
  | Some (y, EmptyString) => mk_date y 1 1 true
  | _ => None
  end.


(* ===================================================================== *)
(* Processed_Days._get_date_range                                         *)
(* ===================================================================== *)

(* An argument is either a string, parsed with strptime, or a date or
   datetime instance, used as it is. *)
Inductive date_arg :=
  | ArgStr (s : string)
  | ArgDate (d : pydate).

(* RangeNone is the method's `return None` (a ValueError was caught);
   RangeRaise is an exception escaping the method. *)
Inductive range_result :=
  | RangeOk (dates : list pydate)
  | RangeNone
  | RangeRaise (e : py_exn).

(* A pydate is a date, or a datetime at midnight: it has no time of day.
   So the model covers strings (strptime gives a datetime at midnight) and
   date objects exactly, and datetime instances only at midnight. *)
Definition at_midnight (a : date_arg) : bool :=
  match a with
  | ArgStr _ => true
  | ArgDate d => negb (is_dt d)
  end.

Definition parse_date_arg (a : date_arg) : option pydate :=
  match a with
  | ArgStr s => strptime_ymd s
  | ArgDate d => Some d
  end.

(*     while curr_date < end_date:
           dates.append(curr_date)
           curr_date += delta
   The fuel only bounds the iterations; [get_date_range] gives one more
   than the distance, so the loop always leaves through its condition
   (see range_loop_spec). *)
Fixpoint range_loop (fuel : nat) (curr end_date : pydate) (acc : list pydate)
  : range_result :=
  match fuel with
  | O => RangeOk acc
  | S f =>
      match date_lt curr end_date with
      | None => RangeRaise TypeError
      | Some false => RangeOk acc
      | Some true =>
          match add_day curr with
          | None => RangeRaise OverflowError
          | Some curr' => range_loop f curr' end_date (acc ++ [curr])
          end
      end
  end.

Definition get_date_range (day : date_arg) (end_date : option date_arg)
  : range_result :=
  match parse_date_arg day with
  | None => RangeNone
  | Some d0 =>
      match end_date with
      | None => RangeOk [d0]
      | Some e =>
          match parse_date_arg e with
          | None => RangeNone
          | Some e' =>
              match add_day d0 with
              | None => RangeRaise OverflowError
              | Some c =>
                  match range_loop (S (Z.to_nat (ord e' - ord c))) c e' [d0] with
                  | RangeOk dates => RangeOk (dates ++ [e'])
                  | r => r
                  end
              end
          end
      end
  end.

(* Consecutive integers a, a+1, ..., a+n-1. *)
Fixpoint zseq (a : Z) (n : nat) : list Z :=
  match n with
  | O => []
  | S n' => a :: zseq (a + 1) n'
  end.

(* The integers of the half-open interval [a, b). *)
Definition zrange (a b : Z) : list Z := zseq a (Z.to_nat (b - a)).

(* ===================================================================== *)
(* The backing store and the statements the tables send to it            *)
(* ===================================================================== *)

(* The statements Processed_Days builds, with the pieces the source joins
   into its SQL text.  Dates are sent as unpadded 'Y/M/D' literals
   (str(date.year), ...).  With a four-digit year the server reads such a
   literal back as the same date, and the model reads every date that
   way; a year below 1000 is outside what the model describes, since
   PostgreSQL takes a short first field as the month ('12/1/1' is
   2001-12-01).  The column text is compared as the code sends it, so the
   model also leaves out other spellings PostgreSQL accepts for day
   (DAY, "day"). *)
Inductive sql_stmt :=
  (* INSERT INTO schema.table (cols) VALUES ('d1'), ... ON CONFLICT DO NOTHING; *)
  | SqlInsertIgnore (schema table cols : string) (rows : list pydate)
  (* DELETE FROM schema.table WHERE col IN ('d1', ...); *)
  | SqlDeleteIn (schema table col : string) (vals : list pydate)
  (* SELECT MAX(col)FROM schema.table; *)
  | SqlSelectMax (col schema table : string).

(* The processed_days relation: the set of stored days (row_id is never
   written by this code).  [db_up] false models a server that fails every
   statement (connection lost, permissions, ...). *)
Record db_state := DbState { db_up : bool; db_days : gset Z }.

Inductive sql_result :=
  | SqlError
  | SqlDone (days : gset Z)
  | SqlScalar (v : option Z).

Definition max_day (days : gset Z) : option Z :=
  match elements days with
  | [] => None
  | x :: l => Some (fold_left Z.max l x)
  end.

Definition days_of (l : list pydate) : gset Z := list_to_set (map ord l).

(* PostgreSQL's reading of the statements against processed_days(day DATE
   PRIMARY KEY, row_id INTEGER).  Its grammar needs at least one column
   name between the parentheses of an INSERT column list and a column
   before IN, and there is no zero-argument MAX(): with an empty name
   each statement is rejected.  A date literal fits only the DATE column. *)
Definition exec_sql (db : db_state) (st : sql_stmt) : sql_result :=
  if negb (db_up db) then SqlError else
  match st with
  | SqlInsertIgnore _ _ cols rows =>
      if String.eqb cols "day" then SqlDone (db_days db ∪ days_of rows)
      else SqlError
  | SqlDeleteIn _ _ col vals =>
      if String.eqb col "day" then SqlDone (db_days db ∖ days_of vals)
      else SqlError
  | SqlSelectMax col _ _ =>
      if String.eqb col "day" then SqlScalar (max_day (db_days db))
      else SqlError
  end.

Definition with_days (db : db_state) (days : gset Z) : db_state :=
  DbState (db_up db) days.

(* ===================================================================== *)
(* Table (table.py) and its two subclasses                                *)
(* ===================================================================== *)

(* A method either returns a value or lets a Python exception escape. *)
Inductive py_res (A : Type) :=
  | PyOk (a : A)
  | PyRaise (e : py_exn).
Arguments PyOk {A} a.
Arguments PyRaise {A} e.

(* The value held by self._expected_cols: a Python set or a Python list. *)
Inductive py_cols :=
  | PySet (l : list string)
  | PyList (l : list string).

(* The instance attributes the methods read.  [t_index_col] is None or a
   str; [t_engine] says whether self._engine holds an Engine. *)
Record table_obj := TableObj {
  t_schema : string;
  t_table_name : string;
  t_index_col : option string;
  t_expected_cols : py_cols;
  t_engine : bool
}.

(* Processed_Days.__init__: _table_name "processed_days", _index_col "",
   _expected_cols a list.  The source never assigns _schema (neither here
   nor in Table.__init__); the model takes it as given. *)
Definition processed_days (schema : string) (engine : bool) : table_obj :=
  TableObj schema "processed_days" (Some "") (PyList ["day"; "row_id"]) engine.

(* Flagged_Data.__init__: _index_col None, _expected_cols a set. *)
Definition flagged_data (schema : string) (engine : bool) : table_obj :=
  TableObj schema "flagged_data" None (PySet ["flag_id"; "row_id"]) engine.

(* --------------------------------------------------------------------- *)
(* Table.get_full_table                                                   *)
(* --------------------------------------------------------------------- *)

(* What SELECT * FROM schema.table gives back: the column names (those of
   one PostgreSQL table, so distinct and never empty) and the rows, or a
   failure, which surfaces as SQLAlchemyError or ValueError, the two
   errors the method catches. *)
Inductive sql_read :=
  | SqlRows (cols : list string) (rows : list (list string))
  | SqlReadFailed.

(* A loaded DataFrame: its index (label and values) when index_col moved a
   column there, its columns (list(df)) and its rows. *)
Record frame := Frame {
  df_index : option (string * list string);
  df_columns : list string;
  df_rows : list (list string)
}.

Fixpoint str_pos (x : string) (l : list string) : option nat :=
  match l with
  | [] => None
  | y :: l' => if String.eqb x y then Some 0%nat else option_map S (str_pos x l')
  end.

Definition drop_at {A} (i : nat) (l : list A) : list A := firstn i l ++ skipn (S i) l.

(* DataFrame.set_index(c): KeyError ("None of [c] are in the columns") when
   no column is labelled c; otherwise the column moves to the index. *)
Definition set_index (cols : list string) (rows : list (list string)) (c : string)
  : option frame :=
  match str_pos c cols with
  | None => None
  | Some i => Some (Frame (Some (c, map (fun r => nth i r EmptyString) rows))
                          (drop_at i cols) (map (drop_at i) rows))
  end.

(* What pandas.read_sql(sql, engine, index_col=...) gives back: a frame,
   one of the two caught errors, or an exception the method does not
   catch.  _wrap_result calls frame.set_index(index_col) whenever
   index_col is not None, also for the empty string. *)
Inductive read_outcome :=
  | ReadFrame (df : frame)
  | ReadCaughtError
  | ReadRaise (e : py_exn).

Definition read_sql (r : sql_read) (index_col : option string) : read_outcome :=
  match r with
  | SqlReadFailed => ReadCaughtError
  | SqlRows cols rows =>
      match index_col with
      | None => ReadFrame (Frame None cols rows)
      | Some c =>
          match set_index cols rows c with
          | None => ReadRaise KeyError
          | Some df => ReadFrame df
          end
      end
  end.

Definition set_eqb (a b : list string) : bool :=
  forallb (fun x => existsb (String.eqb x) b) a &&
  forallb (fun x => existsb (String.eqb x) a) b.

(* set(cols) == expected: a set never equals a list in Python. *)
Definition py_set_eq_cols (cols : list string) (e : py_cols) : bool :=
  match e with
  | PySet l => set_eqb cols l
  | PyList _ => false
  end.

(* PyOk None is the method's `return None`. *)
Definition get_full_table (t : table_obj) (r : sql_read) : py_res (option frame) :=
  if negb (t_engine t) then PyOk None else
  match read_sql r (t_index_col t) with
  | ReadCaughtError => PyOk None
  | ReadRaise e => PyRaise e
  | ReadFrame df =>
      if negb (py_set_eq_cols (df_columns df) (t_expected_cols t)) then PyOk None
      else PyOk (Some df)
  end.

(* --------------------------------------------------------------------- *)
(* Processed_Days.insert                                                  *)
(* --------------------------------------------------------------------- *)

(* Returns the method's boolean and the store afterwards. *)
Definition insert (t : table_obj) (db : db_state) (day : date_arg)
    (end_date : option date_arg) : py_res (bool * db_state) :=
  if negb (t_engine t) then PyOk (false, db) else
  match get_date_range day end_date with
  | RangeNone => PyOk (false, db)
  | RangeRaise e => PyRaise e
  | RangeOk dates =>
      match t_index_col t with
      | None => PyRaise TypeError          (* "".join over None *)
      | Some col =>
          match exec_sql db (SqlInsertIgnore (t_schema t) (t_table_name t) col dates) with
          | SqlDone days => PyOk (true, with_days db days)
          | _ => PyOk (false, db)
          end
      end
  end.

(* --------------------------------------------------------------------- *)
(* Processed_Days.get_latest_day                                          *)
(* --------------------------------------------------------------------- *)

(* The returned value: None or the day read from the first row. *)
Definition get_latest_day (t : table_obj) (db : db_state) : py_res (option Z) :=
  match t_index_col t with
  | None => PyRaise TypeError                (* "".join over None *)
  | Some col =>
      if negb (t_engine t) then PyRaise AttributeError   (* None.connect() *)
      else
      match exec_sql db (SqlSelectMax col (t_schema t) (t_table_name t)) with
      | SqlError => PyOk None                (* except SQLAlchemyError: return None *)
      | SqlScalar v => PyOk v                (* value.first()[0] *)
      | SqlDone _ => PyOk None               (* not produced by a SELECT *)
      end
  end.

Example get_date_range_ex1 :
  get_date_range (ArgStr "2020-01-30") (Some (ArgStr "2020-02-02")) =
  RangeOk [PyDate 737454 true; PyDate 737455 true; PyDate 737456 true; PyDate 737457 true].
Proof. vm_compute. reflexivity. Qed.

(* ===================================================================== *)
(* ArgInterface: typed argument converters                                *)
(* ===================================================================== *)

(* Python's str.startswith. *)
Fixpoint startswith (s pre : string) : bool :=
  match pre, s with
  | EmptyString, _ => true
  | String c p', String d s' => Ascii.eqb c d && startswith s' p'
  | String _ _, EmptyString => false
  end.

(* --------------------------------------------------------------------- *)
(* int(s) on a str, base 10 (PyLong_FromString): surrounding ASCII        *)
(* whitespace, an optional sign, digits with single underscores between  *)
(* them.  None is ValueError.                                             *)
(* --------------------------------------------------------------------- *)

Definition py_isspace (c : ascii) : bool :=
  let n := nat_of_ascii c in (Nat.leb 9 n && Nat.leb n 13) || Nat.eqb n 32.

Fixpoint drop_spaces (l : list ascii) : list ascii :=
  match l with
  | c :: l' => if py_isspace c then drop_spaces l' else l
  | [] => []
  end.

(* The digit run: [prev_us] is true right after an underscore. *)
Fixpoint int_digits (l : list ascii) (acc : Z) (prev_us : bool) : option Z :=
  match l with
  | [] => if prev_us then None else Some acc
  | c :: l' =>
      match digit_val c with
      | Some v => int_digits l' (acc * 10 + v) false
      | None =>
          if Ascii.eqb c "_"%char then
            if prev_us then None else int_digits l' acc true
          else None
      end
  end.

Definition py_int (s : string) : option Z :=
  let body := rev (drop_spaces (rev (drop_spaces (list_ascii_of_string s)))) in
  let '(sign, digits) :=
    match body with
    | c :: l => if Ascii.eqb c "+"%char then (1, l)
                else if Ascii.eqb c "-"%char then (-1, l) else (1, body)
    | [] => (1, [])
    end in
  match digits with
  | c :: _ =>
      match digit_val c with
      | Some _ => option_map (Z.mul sign) (int_digits digits 0 false)
      | None => None       (* no digit, or a leading underscore *)
      end
  | [] => None
  end.

(* Python values stored in the argparse namespace. *)
Inductive pyval :=
  | VNone
  | VBool (b : bool)
  | VStr (s : string)
  | VInt (z : Z)
  | VDate (d : pydate)
  | VEmptyList.              (* [], the only list this parser stores *)

(* Python truthiness. *)
Definition truthy (v : pyval) : bool :=
  match v with
  | VNone => false
  | VBool b => b
  | VStr s => negb (String.eqb s "")
  | VInt z => negb (Z.eqb z 0)
  | VDate _ => true
  | VEmptyList => false
  end.

(* The converters: None stands for argparse.ArgumentTypeError (or the
   ValueError of int), which argparse turns into an error exit. *)
Definition _service_date (arg : string) : option pyval :=
  option_map VDate (strptime_ymd arg).

Definition _service_year (arg : string) : option pyval :=
  option_map VDate (strptime_y arg).

Definition period_names : list string := ["first"; "second"; "third"].

Fixpoint py_index (x : string) (l : list string) : option Z :=
  match l with
  | [] => None
  | y :: l' => if String.eqb x y then Some 0 else option_map Z.succ (py_index x l')
  end.

Definition _service_period (arg : string) : option pyval :=
  match py_int arg with
  | Some p => if (p =? 1) || (p =? 2) || (p =? 3) then Some (VInt p)
              else option_map (fun i => VInt (i + 1)) (py_index arg period_names)
  | None => option_map (fun i => VInt (i + 1)) (py_index arg period_names)
  end.

Definition _limit (arg : string) : option pyval :=
  match py_int arg with
  | Some lim => if 0 <? lim then Some (VInt lim) else None
  | None => None
  end.

(* type=int *)
Definition int_type (arg : string) : option pyval := option_map VInt (py_int arg).

(* ArgInterface._is_present *)
Definition _is_present (args : list string) (short : option string) (long : string) : bool :=
  match short with
  | None => existsb (fun s => startswith s long) args
  | Some sh => existsb (fun s => startswith s sh || startswith s long) args
  end.

(* ===================================================================== *)
(* argparse.ArgumentParser, for a parser with optionals only              *)
(* ===================================================================== *)

(* The behaviour of argparse (as in CPython 3.11) that this parser uses:
   - tokens are classified first (_parse_optional); an ambiguous
     abbreviation is an error before any action runs;
   - an option token is an exact option string, "option=value", a unique
     prefix of long options (allow_abbrev), or a short option with its
     value attached ("-fX"); store_true short options can be chained
     ("-sf X");
   - a value-taking option without an attached value takes the next token
     if that token is not option-like;
   - the type converter runs when the option is taken; its failure is an
     error.  _get_values first removes a "--" from the option's argument
     strings: an explicit value "--" ("-y--", "--date-end=--") leaves no
     string, and the option stores the empty list [] without conversion;
   - -h/--help prints the help and exits with status 0;
   - after all tokens, a required option never seen is an error, and so is
     any token left over (unrecognized arguments).
   Every error exits with status 2.  A "--" token ('-' in the pattern of
   _parse_known_args) cannot be the value of an option ("expected one
   argument"), and it and every token after it are positionals, which
   this parser has none of. *)

Inductive opt_kind :=
  | KStoreTrue
  | KStore (conv : string -> option pyval)
  | KHelp.

Record opt := Opt {
  o_strings : list string;
  o_dest : string;
  o_kind : opt_kind;
  o_required : bool
}.

Definition help_opt : opt := Opt ["-h"; "--help"] "help" KHelp false.

Definition nargs0 (o : opt) : bool :=
  match o_kind o with KStore _ => false | _ => true end.

(* parser._option_string_actions, in insertion order. *)
Definition option_strings (p : list opt) : list (string * opt) :=
  flat_map (fun o => map (fun s => (s, o)) (o_strings o)) p.

Definition find_exact (p : list opt) (s : string) : option opt :=
  option_map snd (List.find (fun so => String.eqb so.1 s) (option_strings p)).

Fixpoint split_eq (s : string) : option (string * string) :=
  match s with
  | EmptyString => None
  | String c r =>
      if Ascii.eqb c "="%char then Some (EmptyString, r)
      else option_map (fun '(a, b) => (String c a, b)) (split_eq r)
  end.

Definition is_dash (c : ascii) : bool := Ascii.eqb c "-"%char.

(* _negative_number_matcher: ^-\d+$|^-\d*\.\d+$ *)
Definition all_digits (l : list ascii) : bool :=
  forallb (fun c => match digit_val c with Some _ => true | None => false end) l.

Definition looks_negative_number (s : string) : bool :=
  match list_ascii_of_string s with
  | c :: l =>
      is_dash c &&
      ((negb (Nat.eqb (length l) 0) && all_digits l) ||
       existsb (fun k => all_digits (firstn k l) &&
                         match skipn k l with
                         | d :: r => Ascii.eqb d "."%char && negb (Nat.eqb (length r) 0)
                                     && all_digits r
                         | [] => false
                         end) (seq 0 (length l)))
  | [] => false
  end.

Definition has_space (s : string) : bool :=
  existsb (fun c => Ascii.eqb c " "%char) (list_ascii_of_string s).

(* Classification of one token. *)
Inductive tok_class :=
  | TPos
  | TOpt (o : option opt) (ostr : string) (explicit : option string)
  | TAmbig
  | TDashDash.

(* _get_option_tuples *)
Definition option_tuples (p : list opt) (s : string) : list (opt * string * option string) :=
  match s with
  | String c1 (String c2 _) =>
      if is_dash c1 && is_dash c2 then
        let '(pre, ex) := match split_eq s with
                          | Some (a, b) => (a, Some b)
                          | None => (s, None)
                          end in
        map (fun so => (so.2, so.1, ex))
            (List.filter (fun so => startswith so.1 pre) (option_strings p))
      else if is_dash c1 then
        let short := String c1 (String c2 EmptyString) in
        let short_ex := substring 2 (String.length s) s in
        flat_map (fun so =>
                    if String.eqb so.1 short then [(so.2, so.1, Some short_ex)]
                    else if startswith so.1 s then [(so.2, so.1, None)]
                    else [])
                 (option_strings p)
      else []
  | _ => []
  end.

(* _parse_optional *)
Definition classify (p : list opt) (s : string) : tok_class :=
  match s with
  | EmptyString => TPos
  | String c r =>
      if negb (is_dash c) then TPos else
      match find_exact p s with
      | Some o => TOpt (Some o) s None
      | None =>
          if String.eqb r "" then TPos else
          let by_eq := match split_eq s with
                       | Some (a, b) =>
                           match find_exact p a with
                           | Some o => Some (TOpt (Some o) a (Some b))
                           | None => None
                           end
                       | None => None
                       end in
          match by_eq with
          | Some t => t
          | None =>
              match option_tuples p s with
              | [(o, os, ex)] => TOpt (Some o) os ex
              | _ :: _ :: _ => TAmbig
              | [] =>
                  if looks_negative_number s then TPos
                  else if has_space s then TPos
                  else TOpt None s None
              end
          end
      end
  end.

(* "--" is marked apart, and every token after it is a positional. *)
Fixpoint classify_all (p : list opt) (args : list string) : list (string * tok_class) :=
  match args with
  | [] => []
  | a :: rest =>
      if String.eqb a "--" then (a, TDashDash) :: map (fun x => (x, TPos)) rest
      else (a, classify p a) :: classify_all p rest
  end.

(* The namespace: attribute name -> value (the first binding wins). *)
Definition namespace := list (string * pyval).

Definition ns_get (ns : namespace) (dest : string) : pyval :=
  match List.find (fun kv => String.eqb kv.1 dest) ns with
  | Some kv => kv.2
  | None => VNone
  end.

Definition defaults (p : list opt) : namespace :=
  flat_map (fun o => match o_kind o with
                     | KStoreTrue => [(o_dest o, VBool false)]
                     | KStore _ => [(o_dest o, VNone)]
                     | KHelp => []
                     end) p.

(* The explicit-argument loop of consume_optional: a store_true single-dash
   option followed by more characters reads them as further single-dash
   options; the last of them may still need the next token. *)
Inductive chain_res :=
  | ChErr
  | ChDone (acts : list (opt * list string))
  | ChPending (acts : list (opt * list string)) (o : opt).

Definition single_dash (ostr : string) : bool :=
  match ostr with
  | String _ (String c _) => negb (is_dash c)
  | _ => false
  end.

Fixpoint chain (p : list opt) (o : opt) (ostr : string) (ex : string)
    (acts : list (opt * list string)) {struct ex} : chain_res :=
  if negb (nargs0 o) then ChDone (acts ++ [(o, [ex])]) else
  match ex with
  | EmptyString => ChErr                  (* ignored explicit argument '' *)
  | String c r =>
      if single_dash ostr then
        let ostr' := String "-"%char (String c EmptyString) in
        match find_exact p ostr' with
        | None => ChErr                   (* ignored explicit argument *)
        | Some o' =>
            match r with
            | EmptyString => ChPending (acts ++ [(o, [])]) o'
            | _ => chain p o' ostr' r (acts ++ [(o, [])])
            end
        end
      else ChErr                          (* ignored explicit argument *)
  end.

Inductive take_res :=
  | TkErr
  | TkHelp
  | TkOk (ns : namespace) (seen : list string).

(* take_action for each collected (action, argument strings). *)
Fixpoint take_actions (acts : list (opt * list string)) (ns : namespace)
    (seen : list string) : take_res :=
  match acts with
  | [] => TkOk ns seen
  | (o, args) :: acts' =>
      let seen' := o_dest o :: seen in
      match o_kind o, args with
      | KHelp, _ => TkHelp
      | KStoreTrue, _ => take_actions acts' ((o_dest o, VBool true) :: ns) seen'
      | KStore conv, [a] =>
          if String.eqb a "--" then take_actions acts' ((o_dest o, VEmptyList) :: ns) seen'
          else
          match conv a with
          | Some v => take_actions acts' ((o_dest o, v) :: ns) seen'
          | None => TkErr
          end
      | KStore _, _ => TkErr
      end
  end.

Inductive parse_outcome :=
  | ParseOk (ns : namespace)
  | ParseErr          (* parser.error: exit status 2 *)
  | ParseHelp.        (* print_help; exit status 0 *)

Definition finish (p : list opt) (ns : namespace) (seen : list string)
    (extras : bool) : parse_outcome :=
  if existsb (fun o => o_required o &&
                       negb (existsb (String.eqb (o_dest o)) seen)) p
  then ParseErr                                (* required arguments missing *)
  else if extras then ParseErr                 (* unrecognized arguments *)
  else ParseOk ns.

Definition then_take (acts : list (opt * list string)) (ns : namespace)
    (seen : list string) (k : namespace -> list string -> parse_outcome)
  : parse_outcome :=
  match take_actions acts ns seen with
  | TkErr => ParseErr
  | TkHelp => ParseHelp
  | TkOk ns' seen' => k ns' seen'
  end.

Fixpoint consume (p : list opt) (toks : list (string * tok_class)) (ns : namespace)
    (seen : list string) (extras : bool) : parse_outcome :=
  match toks with
  | [] => finish p ns seen extras
  | (_, TPos) :: rest => consume p rest ns seen true
  | (_, TDashDash) :: rest => consume p rest ns seen true
  | (_, TAmbig) :: _ => ParseErr
  | (_, TOpt None _ _) :: rest => consume p rest ns seen true
  | (_, TOpt (Some o) ostr ex) :: rest =>
      let pre := match ex with
                 | Some e => chain p o ostr e []
                 | None => ChPending [] o
                 end in
      match pre with
      | ChErr => ParseErr
      | ChDone acts => then_take acts ns seen (fun ns' seen' => consume p rest ns' seen' extras)
      | ChPending acts o' =>
          if nargs0 o' then
            then_take (acts ++ [(o', [])]) ns seen
                      (fun ns' seen' => consume p rest ns' seen' extras)
          else
            match rest with
            | (a, TPos) :: rest' =>
                then_take (acts ++ [(o', [a])]) ns seen
                          (fun ns' seen' => consume p rest' ns' seen' extras)
            | _ => ParseErr                       (* expected one argument *)
            end
      end
  end.

Definition is_ambig (t : string * tok_class) : bool :=
  match t.2 with TAmbig => true | _ => false end.

(* parser.parse_args(args) *)
Definition parse_args (p : list opt) (args : list string) : parse_outcome :=
  let toks := classify_all p args in
  if existsb is_ambig toks then ParseErr
  else consume p toks (defaults p) [] false.

(* ===================================================================== *)
(* ArgInterface._create_parser and ArgInterface.query_with_args           *)
(* ===================================================================== *)

(* The pre-scan values computed at the top of _create_parser. *)
Definition pre_daily (args : list string) : bool := _is_present args None "--daily".
Definition pre_query (args : list string) : bool := _is_present args (Some "-s") "--select".
Definition pre_flag (args : list string) : bool := _is_present args (Some "-f") "--flag".
Definition pre_row (args : list string) : bool := _is_present args (Some "-r") "--row_id".

Definition _create_parser (args : list string) : list opt :=
  let daily := pre_daily args in
  let query := pre_query args in
  let flag := pre_flag args in
  let row := pre_row args in
  [ help_opt;
    Opt ["--daily"] "daily" KStoreTrue
        (_is_present args None "--daily" && Nat.eqb (length args) 1);
    Opt ["--date-start"] "date_start" (KStore _service_date)
        (negb daily && negb query && _is_present args None "--date-end");
    Opt ["--date-end"] "date_end" (KStore _service_date)
        (negb daily && negb query && _is_present args None "--date-start");
    Opt ["-s"; "--select"] "select" KStoreTrue (flag || row);
    Opt ["-f"; "--flag"] "flag" (KStore (fun a => Some (VStr a)))
        (negb daily && query && negb row);
    Opt ["-l"; "--limit"] "limit" (KStore _limit) false;
    Opt ["-r"; "--row"] "row" (KStore int_type)
        (negb daily && query && negb flag);
    Opt ["-y"; "--year"] "year" (KStore _service_year)
        (negb daily && query && row && negb flag);
    Opt ["-p"; "--service-period"] "service_period" (KStore _service_period)
        (negb daily && query && row && negb flag) ].

(* The required flag _create_parser gives the option with this dest. *)
Definition required_of (args : list string) (dest : string) : bool :=
  existsb (fun o => String.eqb (o_dest o) dest && o_required o) (_create_parser args).

Definition _parse_cl_args (args : list string) : parse_outcome :=
  parse_args (_create_parser args) args.

(* The client's flag catalogue: client.lookup_flag_id(name), the id of the
   flag object or None. *)
Definition flag_lookup := string -> option Z.

(* What query_with_args ends up doing. *)
Inductive dispatch :=
  | DExit (code : Z)                          (* SystemExit *)
  | DFlagUnknown (name : string)              (* error logged, flag names listed, None *)
  | DFlagQuery (flag_id : Z) (limit : Z)      (* flagged.query_by_flag_id *)
  | DRowQuery (table : string) (row year period : pyval)  (* flagged.query_by_row_id *)
  | DSelectNothing                            (* _handle_flag_query returns None *)
  | DRangeQuery (start end_ : pyval)          (* client.process_data *)
  | DNextDay                                  (* client.process_next_day(restart=True) *)
  | DInsufficient.                            (* "Insufficient arguments." *)

Definition _handle_flag_query (flag : pyval) (ns : namespace) : dispatch :=
  if truthy flag then
    let limit := if truthy (ns_get ns "limit")
                 then match ns_get ns "limit" with VInt l => l | _ => 100 end
                 else 100 in
    match flag with
    | VInt id => DFlagQuery id limit
    | _ => DSelectNothing                     (* not reached: flag is an id *)
    end
  else if truthy (ns_get ns "row") then
    DRowQuery "service_periods" (ns_get ns "row") (ns_get ns "year")
              (ns_get ns "service_period")
  else DSelectNothing.

Definition query_with_args (lookup : flag_lookup) (args : list string) : dispatch :=
  match _parse_cl_args args with
  | ParseErr => DExit 2
  | ParseHelp => DExit 0
  | ParseOk ns =>
      let flag_res :=
        match ns_get ns "flag" with
        | VStr q as f =>
            if truthy f then
              match lookup q with
              | None => inr q
              | Some id => inl (VInt id)
              end
            else inl f
        | f => inl f
        end in
      match flag_res with
      | inr q => DFlagUnknown q
      | inl flag =>
          if truthy (ns_get ns "select") then _handle_flag_query flag ns
          else if truthy (ns_get ns "date_start") then
            DRangeQuery (ns_get ns "date_start") (ns_get ns "date_end")
          else if truthy (ns_get ns "daily") then DNextDay
          else DInsufficient
      end
  end.

Definition no_flags : flag_lookup := fun _ => None.

(* ===================================================================== *)
(* Processed_Days.delete                                                  *)
(* ===================================================================== *)

(* Same shape as insert: DELETE FROM schema.table WHERE _index_col IN
   ('Y/M/D', ...); returns the method's boolean and the store afterwards. *)
Definition delete (t : table_obj) (db : db_state) (day : date_arg)
    (end_date : option date_arg) : py_res (bool * db_state) :=
  if negb (t_engine t) then PyOk (false, db) else
  match get_date_range day end_date with
  | RangeNone => PyOk (false, db)
  | RangeRaise e => PyRaise e
  | RangeOk dates =>
      match t_index_col t with
      | None => PyRaise TypeError          (* "".join over None *)
      | Some col =>
          match exec_sql db (SqlDeleteIn (t_schema t) (t_table_name t) col dates) with
          | SqlDone days => PyOk (true, with_days db days)
          | _ => PyOk (false, db)
          end
      end
  end.

(* ===================================================================== *)
(* Table: create_schema, delete_schema, create_table, delete_table        *)
(* ===================================================================== *)

(* One column of a CREATE TABLE statement: its name, its type (None when
   the text names none), a column-level PRIMARY KEY, and the
   (schema, table, column) of a REFERENCES clause. *)
Record column_def := ColumnDef {
  cd_name : string;
  cd_type : option string;
  cd_primary : bool;
  cd_ref : option (string * string * string)
}.

(* CREATE TABLE IF NOT EXISTS schema.table (columns, PRIMARY KEY (...)); *)
Record create_stmt := CreateStmt {
  cs_schema : string;
  cs_table : string;
  cs_columns : list column_def;
  cs_primary : list string
}.

(* Processed_Days._creation_sql: the third entry, "service_", is a column
   name with no type. *)
Definition processed_days_creation_sql (schema : string) : create_stmt :=
  CreateStmt schema "processed_days"
    [ColumnDef "day" (Some "DATE") true None;
     ColumnDef "row_id" (Some "INTEGER") false None;
     ColumnDef "service_" None false None]
    [].

(* Flagged_Data._creation_sql *)
Definition flagged_data_creation_sql (schema : string) : create_stmt :=
  CreateStmt schema "flagged_data"
    [ColumnDef "flag_id" (Some "INTEGER") false (Some (schema, "flags", "flag_id"));
     ColumnDef "service_key" (Some "INTEGER") false
       (Some (schema, "service_periods", "service_key"));
     ColumnDef "row_id" (Some "INTEGER") false None]
    ["flag_id"; "service_key"; "row_id"].

(* A relation of the catalog: its columns carrying a single-column unique
   key (what a REFERENCES clause may point to) and the relations its
   foreign keys point to. *)
Record rel_info := RelInfo {
  ri_keys : list string;
  ri_refs : list (string * string)
}.

(* The server's catalog: schemas and relations keyed by (schema, name).
   [cat_up] false models a server that fails every statement.  The rows
   of processed_days are the separate [db_state] above. *)
Record catalog := Catalog {
  cat_up : bool;
  cat_schemas : gset string;
  cat_rels : gmap (string * string) rel_info
}.

Inductive ddl_stmt :=
  | DdlCreateSchema (schema : string)          (* CREATE SCHEMA IF NOT EXISTS s; *)
  | DdlDropSchema (schema : string)            (* DROP SCHEMA IF EXISTS s CASCADE; *)
  | DdlCreateTable (cs : create_stmt)          (* self._creation_sql *)
  | DdlDropTable (schema table : string).      (* DROP TABLE IF EXISTS s.t; *)

Definition ref_ok (c : catalog) (r : string * string * string) : bool :=
  let '(s, t, col) := r in
  match cat_rels c !! (s, t) with
  | Some ri => existsb (String.eqb col) (ri_keys ri)
  | None => false
  end.

Definition col_refs (cs : create_stmt) : list (string * string * string) :=
  flat_map (fun cd => match cd_ref cd with Some r => [r] | None => [] end)
           (cs_columns cs).

Definition new_rel (cs : create_stmt) : rel_info :=
  RelInfo (map cd_name (List.filter cd_primary (cs_columns cs)) ++
           (match cs_primary cs with [k] => [k] | _ => [] end))
          (map fst (col_refs cs)).

(* Some other relation has a foreign key to k. *)
Definition referenced_by_other (c : catalog) (k : string * string) : bool :=
  existsb (fun kv => negb (bool_decide (kv.1 = k)) &&
                     existsb (fun r => bool_decide (r = k)) (ri_refs kv.2))
          (map_to_list (cat_rels c)).

(* PostgreSQL's reading of the four statements; None is an error.
   - CREATE TABLE is parsed first: a column definition without a type is
     a syntax error.  Then the schema must exist; IF NOT EXISTS skips an
     existing relation with a notice; every REFERENCES target must be a
     unique column of an existing relation.
   - DROP SCHEMA ... CASCADE drops the schema's relations and the foreign
     keys other relations have into them.
   - DROP TABLE IF EXISTS skips a missing relation with a notice and, with
     no CASCADE, fails when another relation has a foreign key to it. *)
Definition exec_ddl (c : catalog) (st : ddl_stmt) : option catalog :=
  if negb (cat_up c) then None else
  match st with
  | DdlCreateSchema s => Some (Catalog true ({[s]} ∪ cat_schemas c) (cat_rels c))
  | DdlDropSchema s =>
      Some (Catalog true (cat_schemas c ∖ {[s]})
              (fmap (fun ri => RelInfo (ri_keys ri)
                                 (List.filter (fun r => negb (String.eqb r.1 s)) (ri_refs ri)))
                    (filter (fun kv : (string * string) * rel_info => kv.1.1 <> s)
                            (cat_rels c))))
  | DdlCreateTable cs =>
      if existsb (fun cd => match cd_type cd with None => true | Some _ => false end)
                 (cs_columns cs) then None
      else if negb (bool_decide (cs_schema cs ∈ cat_schemas c)) then None
      else match cat_rels c !! (cs_schema cs, cs_table cs) with
           | Some _ => Some c
           | None =>
               if forallb (ref_ok c) (col_refs cs)
               then Some (Catalog true (cat_schemas c)
                            (<[(cs_schema cs, cs_table cs) := new_rel cs]> (cat_rels c)))
               else None
           end
  | DdlDropTable s t =>
      match cat_rels c !! (s, t) with
      | None => Some c
      | Some _ =>
          if referenced_by_other c (s, t) then None
          else Some (Catalog true (cat_schemas c) (stdpp.base.delete (s, t) (cat_rels c)))
      end
  end.

(* conn.execute(sql) inside try/except SQLAlchemyError: the boolean the
   method returns and the catalog afterwards. *)
Definition run_ddl (c : catalog) (st : ddl_stmt) : bool * catalog :=
  match exec_ddl c st with
  | Some c' => (true, c')
  | None => (false, c)
  end.

Definition create_schema (t : table_obj) (c : catalog) : bool * catalog :=
  if negb (t_engine t) then (false, c) else
  run_ddl c (DdlCreateSchema (t_schema t)).

Definition delete_schema (t : table_obj) (c : catalog) : bool * catalog :=
  if negb (t_engine t) then (false, c) else
  run_ddl c (DdlDropSchema (t_schema t)).

(* [creation_sql] is the subclass's self._creation_sql. *)
Definition create_table (t : table_obj) (creation_sql : create_stmt) (c : catalog)
  : bool * catalog :=
  if negb (t_engine t) then (false, c) else
  let '(ok, c1) := create_schema t c in
  if negb ok then (false, c1) else
  run_ddl c1 (DdlCreateTable creation_sql).

Definition delete_table (t : table_obj) (c : catalog) : bool * catalog :=
  if negb (t_engine t) then (false, c) else
  run_ddl c (DdlDropTable (t_schema t) (t_table_name t)).

(* ===================================================================== *)
(* Table.__init__, Table._prompt and the subclass constructors            *)
(* ===================================================================== *)

(* What input() / getpass.getpass() read: a line, or EOFError. *)
Inductive stdin_event :=
  | StdinLine (s : string)
  | StdinEOF.

(* Table._prompt: each EOFError prints a newline and asks again.  The
   list is what stdin delivers; once it is used up stdin stays at end of
   file, so the loop never returns (None). *)
Fixpoint _prompt (inp : list stdin_event) : option (string * list stdin_event) :=
  match inp with
  | [] => None
  | StdinLine s :: rest => Some (s, rest)
  | StdinEOF :: rest => _prompt rest
  end.

Inductive init_result :=
  | InitEngine (url : string) (rest : list stdin_event)   (* create_engine(url) *)
  | InitRaise (e : py_exn)
  | InitLoops.

(* Table.__init__ up to the create_engine call.  Without an engine the
   body first sets user = None and passwd = None, so both are always
   prompted for. *)
Definition table_init (user passwd hostname db_name engine : option string)
    (inp : list stdin_event) : init_result :=
  match engine with
  | Some e => InitEngine e inp
  | None =>
      let user := @None string in
      let passwd := @None string in
      match match user with None => _prompt inp | Some u => Some (u, inp) end with
      | None => InitLoops
      | Some (u, inp1) =>
          match match passwd with None => _prompt inp1 | Some p => Some (p, inp1) end with
          | None => InitLoops
          | Some (p, inp2) =>
              match hostname, db_name with
              | Some h, Some d =>
                  InitEngine (String.append "postgresql://"
                               (String.append u (String.append ":"
                               (String.append p (String.append "@"
                               (String.append h (String.append "/" d))))))) inp2
              | _, _ => InitRaise TypeError      (* "".join over None *)
              end
          end
      end
  end.

Inductive ctor_result :=
  | CtorReturns
  | CtorRaises (e : py_exn)
  | CtorLoops.

(* Processed_Days.__init__ and Flagged_Data.__init__: super().__init__,
   then the attribute assignments, then _creation_sql, whose "".join reads
   self._schema, which nothing assigns: AttributeError.  [create_engine]
   gives the exception sqlalchemy.create_engine raises for a URL, if any. *)
Definition subclass_init (create_engine : string -> option py_exn)
    (user passwd hostname db_name engine : option string)
    (inp : list stdin_event) : ctor_result :=
  match table_init user passwd hostname db_name engine inp with
  | InitLoops => CtorLoops
  | InitRaise e => CtorRaises e
  | InitEngine url _ =>
      match create_engine url with
      | Some e => CtorRaises e
      | None => CtorRaises AttributeError     (* self._schema *)
      end
  end.

(* ===================================================================== *)
(* The values the parser can leave in the namespace                       *)
(* ===================================================================== *)

Definition valid_ymd (y m d : Z) : Prop :=
  1 <= y <= 9999 /\ 1 <= m <= 12 /\ 1 <= d <= days_in_month y m.

(* For each attribute of the namespace, the values its option can store:
   the default, or what the option's action or type converter gives. *)
Definition arg_value_ok (dest : string) (v : pyval) : Prop :=
  if String.eqb dest "date_start" || String.eqb dest "date_end" then
    v = VNone \/ v = VEmptyList \/
    exists y m d, valid_ymd y m d /\ v = VDate (PyDate (ymd2ord y m d) true)
  else if String.eqb dest "year" then
    v = VNone \/ v = VEmptyList \/
    exists y, 1 <= y <= 9999 /\ v = VDate (PyDate (ymd2ord y 1 1) true)
  else if String.eqb dest "service_period" then
    v = VNone \/ v = VEmptyList \/ v = VInt 1 \/ v = VInt 2 \/ v = VInt 3
  else if String.eqb dest "limit" then v = VNone \/ v = VEmptyList \/ exists l, 0 < l /\ v = VInt l
  else if String.eqb dest "row" then v = VNone \/ v = VEmptyList \/ exists r, v = VInt r
  else if String.eqb dest "flag" then v = VNone \/ v = VEmptyList \/ exists s, v = VStr s
  else exists b, v = VBool b.

(* date.isoformat() of a date with a four-digit year: the YYYY-MM-DD text
   the --date-start and --date-end help asks for. *)
Definition digit_char (k : Z) : ascii := ascii_of_nat (Z.to_nat (48 + k)).

Definition pad2 (n : Z) : string :=
  String (digit_char (n / 10)) (String (digit_char (n mod 10)) EmptyString).

Definition pad4 (n : Z) : string :=
  String (digit_char (n / 1000))
    (String (digit_char (n / 100 mod 10))
      (String (digit_char (n / 10 mod 10))
        (String (digit_char (n mod 10)) EmptyString))).

Definition iso_date (y m d : Z) : string :=
  String.append (pad4 y) (String.append "-" (String.append (pad2 m) (String.append "-" (pad2 d)))).


(* ===================================================================== *)
(* Proofs: _get_date_range                                                *)
(* ===================================================================== *)

Section DateRange.

Definition at_kind (dt : bool) (k : Z) : pydate := PyDate k dt.

Lemma zrange_nil (a b : Z) : b <= a -> zrange a b = [].
Proof. intros H. unfold zrange. replace (Z.to_nat (b - a)) with 0%nat by lia. reflexivity. Qed.

Lemma zrange_cons (a b : Z) : a < b -> zrange a b = a :: zrange (a + 1) b.
Proof.
  intros H. unfold zrange.
  replace (Z.to_nat (b - a)) with (S (Z.to_nat (b - (a + 1)))) by lia.
  reflexivity.
Qed.

Lemma pydate_eta (d : pydate) : PyDate (ord d) (is_dt d) = d.
Proof. destruct d; reflexivity. Qed.

Lemma range_loop_spec (n : nat) :
  forall (c e : pydate) (acc : list pydate),
    is_dt c = is_dt e -> ord e <= MAXORDINAL ->
    (Z.to_nat (ord e - ord c) < n)%nat ->
    range_loop n c e acc =
    RangeOk (acc ++ map (at_kind (is_dt c)) (zrange (ord c) (ord e))).
Proof.
  induction n as [|f IH]; intros c e acc Hk Hmax Hn; [lia|].
  simpl. unfold date_lt. rewrite Hk, eqb_reflx.
  destruct (Z.ltb_spec (ord c) (ord e)) as [Hlt|Hge].
  - unfold add_day. destruct (Z.ltb_spec (ord c) MAXORDINAL) as [_|]; [|lia].
    rewrite IH by (simpl; first [assumption | lia]). simpl.
    rewrite (zrange_cons (ord c) (ord e) Hlt). simpl.
    rewrite <- Hk. unfold at_kind at 2. rewrite pydate_eta, <- app_assoc. reflexivity.
  - rewrite zrange_nil by lia. simpl. rewrite app_nil_r. reflexivity.
Qed.

(* The shape of every range the helper builds from two parsed bounds of
   the same kind: the start, the days strictly between, then the end. *)
Lemma date_range_shape (a b : date_arg) (d e : pydate) :
  parse_date_arg a = Some d -> parse_date_arg b = Some e ->
  is_dt d = is_dt e -> ord d < MAXORDINAL -> ord e <= MAXORDINAL ->
  get_date_range a (Some b) =
  RangeOk (d :: map (at_kind (is_dt d)) (zrange (ord d + 1) (ord e)) ++ [e]).
Proof.
  intros Ha Hb Hk Hd He. unfold get_date_range. rewrite Ha, Hb.
  unfold add_day. destruct (Z.ltb_spec (ord d) MAXORDINAL) as [_|]; [|lia].
  rewrite range_loop_spec by (simpl; first [assumption | lia]). reflexivity.
Qed.

(** When both bounds are strings or both are date objects, and end_date
    is strictly later than day, the range is exactly the consecutive days
    from day to end_date, each once. *)
Lemma date_range_increasing (a b : date_arg) (d e : pydate) :
  at_midnight a = true -> at_midnight b = true ->
  parse_date_arg a = Some d -> parse_date_arg b = Some e ->
  is_dt d = is_dt e -> ord d < ord e -> ord e <= MAXORDINAL ->
  get_date_range a (Some b) =
  RangeOk (map (at_kind (is_dt d)) (zrange (ord d) (ord e + 1))).
Proof.
  intros _ _ Ha Hb Hk Hlt He. rewrite (date_range_shape a b d e) by (auto; lia).
  f_equal. rewrite (zrange_cons (ord d)) by lia. simpl.
  change (at_kind (is_dt d) (ord d)) with (PyDate (ord d) (is_dt d)).
  rewrite pydate_eta. f_equal.
  assert (Hsplit : forall n x, zseq x (S n) = zseq x n ++ [x + Z.of_nat n]).
  { induction n as [|n IHn]; intros x.
    - simpl. f_equal. lia.
    - change (zseq x (S (S n))) with (x :: zseq (x + 1) (S n)).
      rewrite IHn. change (zseq x (S n)) with (x :: zseq (x + 1) n).
      simpl. do 3 f_equal. lia. }
  unfold zrange.
  replace (Z.to_nat (ord e + 1 - (ord d + 1))) with (S (Z.to_nat (ord e - (ord d + 1)))) by lia.
  rewrite Hsplit, map_app. simpl. f_equal. f_equal.
  unfold at_kind. rewrite Hk. replace (ord d + 1 + Z.of_nat (Z.to_nat (ord e - (ord d + 1))))
    with (ord e) by lia. symmetry. apply pydate_eta.
Qed.

End DateRange.

Definition D_2020_01_01 : pydate := PyDate 737425 true.
Definition D_2020_01_02 : pydate := PyDate 737426 true.

(** C1 (code_bug).  With equal bounds the helper returns the day twice:
    the loop adds nothing and end_date is appended after the start, so
    _get_date_range(day, day) is [day, day], not the single date day. *)
Theorem get_date_range_equal_bounds_duplicate (a : date_arg) (d : pydate) :
  parse_date_arg a = Some d -> ord d < MAXORDINAL ->
  get_date_range a (Some a) = RangeOk [d; d].
Proof.
  intros Ha Hd.
  rewrite (date_range_shape a a d d) by (first [assumption | reflexivity | lia]).
  rewrite zrange_nil by lia. reflexivity.
Qed.

Lemma get_date_range_equal_bounds_duplicate_witness :
  parse_date_arg (ArgStr "2020-01-01") = Some D_2020_01_01 /\
  get_date_range (ArgStr "2020-01-01") (Some (ArgStr "2020-01-01")) =
  RangeOk [D_2020_01_01; D_2020_01_01].
Proof.
  split; [vm_compute; reflexivity|].
  apply get_date_range_equal_bounds_duplicate; vm_compute; reflexivity.
Defined.

(** C2 (code_bug).  For bounds of the same kind (both strings, or both
    date objects) with endDay strictly before day (and day before
    date.max), _get_date_range raises nothing and iterates nothing, but
    the unconditional dates.append(end_date) makes the result the two
    dates [day, endDay] instead of the single date day. *)
Theorem get_date_range_reversed_pair (a b : date_arg) (d e : pydate) :
  parse_date_arg a = Some d -> parse_date_arg b = Some e ->
  is_dt d = is_dt e -> ord e < ord d -> ord d < MAXORDINAL ->
  get_date_range a (Some b) = RangeOk [d; e].
Proof.
  intros Ha Hb Hk Hlt Hd.
  rewrite (date_range_shape a b d e) by (first [assumption | lia]).
  rewrite zrange_nil by lia. reflexivity.
Qed.

Lemma get_date_range_reversed_pair_witness :
  get_date_range (ArgStr "2020-01-02") (Some (ArgStr "2020-01-01")) =
  RangeOk [D_2020_01_02; D_2020_01_01].
Proof.
  apply get_date_range_reversed_pair; vm_compute; first [reflexivity | discriminate].
Defined.

(* ===================================================================== *)
(* Proofs: the Table methods                                              *)
(* ===================================================================== *)

Section Store.

Lemma fold_max_spec (l : list Z) :
  forall x, In (fold_left Z.max l x) (x :: l) /\
            forall y, In y (x :: l) -> y <= fold_left Z.max l x.
Proof.
  induction l as [|z l IH]; intros x; simpl.
  - split; [auto|]. intros y [->|[]]. lia.
  - destruct (IH (Z.max x z)) as [Hin Hge]. split.
    + destruct Hin as [Heq|Hin]; [|auto].
      rewrite <- Heq. destruct (Z.max_spec x z) as [[_ ->]|[_ ->]]; auto.
    + intros y Hy. specialize (Hge (Z.max x z) (or_introl eq_refl)) as Hm.
      destruct Hy as [Hy|[Hy|Hy]]; [subst y; lia | subst y; lia |].
      apply Hge. right. exact Hy.
Qed.

Lemma max_day_spec (days : gset Z) (m : Z) :
  max_day days = Some m -> m ∈ days /\ forall x, x ∈ days -> x <= m.
Proof.
  unfold max_day. destruct (elements days) as [|x l] eqn:He; [discriminate|].
  intros [= <-]. destruct (fold_max_spec l x) as [Hin Hge]. split.
  - apply elem_of_elements. rewrite He. apply list_elem_of_In. exact Hin.
  - intros y Hy. apply Hge. apply list_elem_of_In. rewrite <- He.
    apply elem_of_elements. exact Hy.
Qed.

Lemma max_day_None (days : gset Z) : max_day days = None <-> days = ∅.
Proof.
  unfold max_day. destruct (elements days) as [|x l] eqn:He; split; intros H.
  - apply elements_empty_inv in He. apply leibniz_equiv in He. exact He.
  - reflexivity.
  - discriminate.
  - subst. rewrite elements_empty in He. discriminate.
Qed.

Lemma set_eqb_spec (a b : list string) :
  set_eqb a b = true <-> (forall x, In x a <-> In x b).
Proof.
  unfold set_eqb. rewrite andb_true_iff, !forallb_forall.
  split.
  - intros [H1 H2] x. split; intros Hx.
    + specialize (H1 x Hx). apply existsb_exists in H1 as (y & Hy & Hxy).
      apply String.eqb_eq in Hxy. subst. exact Hy.
    + specialize (H2 x Hx). apply existsb_exists in H2 as (y & Hy & Hxy).
      apply String.eqb_eq in Hxy. subst. exact Hy.
  - intros H. split; intros x Hx; apply existsb_exists; exists x;
      split; [apply H; exact Hx | apply String.eqb_refl | apply H; exact Hx
             | apply String.eqb_refl].
Qed.

End Store.

(** get_full_table on a table whose _expected_cols is a set, as the Table
    docstring asks ("str set self._expected_cols"): a caught read error
    gives None, an exception of read_sql escapes, and for every frame
    read_sql returns, that frame is returned exactly when its columns are
    the declared set, and None otherwise. *)
Lemma get_full_table_set_declared (t : table_obj) (l : list string) :
  t_engine t = true -> t_expected_cols t = PySet l ->
  get_full_table t SqlReadFailed = PyOk None /\
  (forall r e, read_sql r (t_index_col t) = ReadRaise e -> get_full_table t r = PyRaise e) /\
  forall r df, read_sql r (t_index_col t) = ReadFrame df ->
    (get_full_table t r = PyOk (Some df) <->
       (forall x, In x (df_columns df) <-> In x l)) /\
    (get_full_table t r = PyOk None <->
       ~ (forall x, In x (df_columns df) <-> In x l)).
Proof.
  intros He Hc. unfold get_full_table. rewrite He, Hc. simpl.
  split; [reflexivity|]. split.
  - intros r e Hr. rewrite Hr. reflexivity.
  - intros r df Hr. rewrite Hr.
    rewrite <- set_eqb_spec.
    destruct (set_eqb (df_columns df) l); simpl; intuition congruence.
Qed.

(** Processed_Days.insert never stores anything and never reports success:
    its column list is _index_col, the empty string. *)
Lemma insert_processed_days_no_effect (schema : string) (db : db_state)
    (a : date_arg) (b : option date_arg) (r : bool * db_state) :
  insert (processed_days schema true) db a b = PyOk r -> r = (false, db).
Proof.
  unfold insert. simpl.
  destruct (get_date_range a b); try discriminate; [| congruence].
  unfold exec_sql. destruct (db_up db); simpl; congruence.
Qed.

(* The same method with "day" as the column list: two inserts of dates
   with four-digit years give the union of the two ranges, overlapping or
   not. *)
Lemma insert_day_column_union (t : table_obj) (db : db_state)
    (a1 a2 : date_arg) (b1 b2 : option date_arg) (r1 r2 : list pydate) :
  t_engine t = true -> t_index_col t = Some "day" -> db_up db = true ->
  get_date_range a1 b1 = RangeOk r1 -> get_date_range a2 b2 = RangeOk r2 ->
  Forall (fun d => ymd2ord 1000 1 1 <= ord d) (r1 ++ r2) ->
  exists db',
    insert t db a1 b1 = PyOk (true, db') /\
    insert t db' a2 b2 =
      PyOk (true, with_days db (db_days db ∪ days_of r1 ∪ days_of r2)).
Proof.
  intros He Hc Hup H1 H2 _.
  exists (with_days db (db_days db ∪ days_of r1)).
  unfold insert. rewrite He, Hc, H1, H2. simpl.
  unfold exec_sql. simpl. rewrite Hup. simpl. split; reflexivity.
Qed.

(** C5 (counterexample).  On a Processed_Days store, get_latest_day gives
    the same value None when the server fails every statement, when the
    store is empty, and when it holds a day. *)
Lemma get_latest_day_error_same_as_empty :
  get_latest_day (processed_days "public" true) (DbState false ∅) = PyOk None /\
  get_latest_day (processed_days "public" true) (DbState true ∅) = PyOk None /\
  get_latest_day (processed_days "public" true) (DbState true {[737425]}) = PyOk None.
Proof. vm_compute. repeat split. Qed.

(** C5 (amended).  get_latest_day returns None when its SELECT MAX
    statement fails and also when that statement succeeds on an empty
    store, so a caller cannot tell a failure from an empty store; any date
    it returns is the maximum stored day, and with a valid column a
    non-empty store does yield a date. *)
Theorem get_latest_day_outcomes (t : table_obj) (col : string) (days : gset Z) :
  t_engine t = true -> t_index_col t = Some col ->
  get_latest_day t (DbState false days) = PyOk None /\
  get_latest_day t (DbState true ∅) = PyOk None /\
  (forall m, get_latest_day t (DbState true days) = PyOk (Some m) ->
             m ∈ days /\ forall x, x ∈ days -> x <= m) /\
  (col = "day" -> days <> ∅ ->
   exists m, get_latest_day t (DbState true days) = PyOk (Some m)).
Proof.
  intros He Hc. unfold get_latest_day, exec_sql. rewrite Hc, He. simpl.
  split; [reflexivity|]. split.
  { destruct (String.eqb col "day"); [|reflexivity].
    assert (H : max_day ∅ = None) by (apply max_day_None; reflexivity).
    rewrite H. reflexivity. }
  split.
  - intros m. destruct (String.eqb col "day"); [|discriminate].
    intros [= Hm]. apply max_day_spec. exact Hm.
  - intros -> Hne. simpl.
    destruct (max_day days) as [m|] eqn:Hm.
    + exists m. reflexivity.
    + apply max_day_None in Hm. contradiction.
Qed.

Lemma get_latest_day_outcomes_witness :
  get_latest_day (processed_days "public" true) (DbState false {[737425]}) = PyOk None /\
  get_latest_day (processed_days "public" true) (DbState true ∅) = PyOk None.
Proof.
  destruct (get_latest_day_outcomes (processed_days "public" true) "" {[737425]})
    as (H1 & H2 & _); [reflexivity | reflexivity |].
  split; assumption.
Defined.

Definition pd_read : sql_read := SqlRows ["day"; "row_id"] [["2020-01-01"; "1"]].

(** C6 (code_bug).  A full-table read of processed_days whose columns are
    exactly {day, row_id}, its declared columns, neither returns the table
    nor the sentinel None: read_sql(..., index_col="") calls
    set_index(""), and the KeyError escapes get_full_table.  The same
    method on Flagged_Data (no index column, columns declared as a set)
    returns a matching read. *)
Theorem get_full_table_processed_days_raises_on_read :
  get_full_table (processed_days "public" true) pd_read = PyRaise KeyError /\
  get_full_table (flagged_data "public" true) (SqlRows ["row_id"; "flag_id"] []) =
    PyOk (Some (Frame None ["row_id"; "flag_id"] [])).
Proof. vm_compute. split; reflexivity. Qed.

(** C7 (code_bug).  Inserting 2020-01-01..2020-01-03 and then the
    overlapping 2020-01-02..2020-01-04 into an empty processed_days store
    fails both times: each insert returns False and the store stays
    empty, instead of holding the five days of the union. *)
Theorem insert_overlapping_ranges_store_nothing :
  insert (processed_days "public" true) (DbState true ∅)
    (ArgStr "2020-01-01") (Some (ArgStr "2020-01-03")) =
    PyOk (false, DbState true ∅) /\
  insert (processed_days "public" true) (DbState true ∅)
    (ArgStr "2020-01-02") (Some (ArgStr "2020-01-04")) =
    PyOk (false, DbState true ∅).
Proof. vm_compute. split; reflexivity. Qed.

Lemma str_pos_None (x : string) (l : list string) : ~ In x l -> str_pos x l = None.
Proof.
  induction l as [|y l IH]; simpl; intros Hn; [reflexivity|].
  destruct (String.eqb_spec x y) as [->|_]; [exfalso; apply Hn; left; reflexivity|].
  rewrite IH; [reflexivity|]. intros H. apply Hn. right. exact H.
Qed.

(** C9 (counterexample).  The read of processed_days whose columns are
    exactly {day, row_id} makes get_full_table raise KeyError, not return
    None. *)
Lemma processed_days_full_table_matching_raises :
  get_full_table (processed_days "public" true) pd_read = PyRaise KeyError /\
  get_full_table (processed_days "public" true) pd_read <> PyOk None.
Proof. vm_compute. split; [reflexivity | discriminate]. Qed.

(** C9 (amended).  Processed_Days.get_full_table never returns the table.
    With an engine, every successful read (a PostgreSQL table has no
    column with an empty name) raises an uncaught KeyError, because
    _index_col "" makes read_sql call set_index(""), so the comparison of
    the column set with the _expected_cols list is never reached; a failed
    read returns None, and without an engine it returns None. *)
Theorem processed_days_full_table_raises (schema : string) (cols : list string)
    (rows : list (list string)) :
  ~ In "" cols ->
  get_full_table (processed_days schema true) (SqlRows cols rows) = PyRaise KeyError /\
  get_full_table (processed_days schema true) SqlReadFailed = PyOk None /\
  (forall r, get_full_table (processed_days schema false) r = PyOk None).
Proof.
  intros Hn. unfold get_full_table. simpl. split; [|split; reflexivity].
  unfold set_index. rewrite (str_pos_None "" cols Hn). reflexivity.
Qed.

Lemma processed_days_full_table_raises_witness :
  ~ In "" ["day"; "row_id"] /\
  get_full_table (processed_days "public" true) pd_read = PyRaise KeyError.
Proof.
  assert (H : ~ In "" ["day"; "row_id"]) by (simpl; intuition discriminate).
  split; [exact H|].
  destruct (processed_days_full_table_raises "public" ["day"; "row_id"]
              [["2020-01-01"; "1"]] H) as [H1 _].
  exact H1.
Defined.

(* ===================================================================== *)
(* Proofs: ArgInterface                                                   *)
(* ===================================================================== *)

Section Args.

Definition with_flag_7 : flag_lookup := fun _ => Some 7.

(** C3.  ["--select", "--flag=X"] parses (select set, flag "X") with
    --year, --service-period and --row not required, and is dispatched to
    the flag query; ["--select", "--row=5"] fails validation and the
    process exits with status 2. *)
Theorem select_flag_parses_select_row_exits :
  match _parse_cl_args ["--select"; "--flag=X"] with
  | ParseOk ns => ns_get ns "select" = VBool true /\ ns_get ns "flag" = VStr "X"
  | _ => False
  end /\
  required_of ["--select"; "--flag=X"] "year" = false /\
  required_of ["--select"; "--flag=X"] "service_period" = false /\
  required_of ["--select"; "--flag=X"] "row" = false /\
  query_with_args with_flag_7 ["--select"; "--flag=X"] = DFlagQuery 7 100 /\
  (forall lookup, query_with_args lookup ["--select"; "--row=5"] = DExit 2).
Proof.
  split; [vm_compute; split; reflexivity|].
  split; [vm_compute; reflexivity|].
  split; [vm_compute; reflexivity|].
  split; [vm_compute; reflexivity|].
  split; [vm_compute; reflexivity|].
  intros lookup. vm_compute. reflexivity.
Qed.

(** C4 (code_bug).  ["--daily"] alone parses and runs process_next_day,
    but --daily is not exclusive: required=... and len(args) == 1 only
    makes --daily required when it is the single argument, which rejects
    nothing, so a list holding --daily and other arguments is judged by
    the other options' rules alone.  ["--daily", "--limit=5"] still runs
    the daily job, and ["--daily", "--select", "--flag=X"] runs the flag
    query instead; neither exits with status 2. *)
Theorem daily_alone_runs_daily_not_exclusive :
  (forall lookup, query_with_args lookup ["--daily"] = DNextDay) /\
  (forall a b rest, required_of (a :: b :: rest) "daily" = false) /\
  query_with_args no_flags ["--daily"; "--limit=5"] = DNextDay /\
  query_with_args with_flag_7 ["--daily"; "--select"; "--flag=X"] = DFlagQuery 7 100.
Proof.
  split; [intros lookup; vm_compute; reflexivity|].
  split.
  - intros a b rest. unfold required_of, _create_parser. cbn -[_is_present].
    rewrite andb_false_r. reflexivity.
  - vm_compute. split; reflexivity.
Qed.

End Args.

Section Prescan.

Lemma py_index_Some_In (x : string) (l : list string) (i : Z) :
  py_index x l = Some i -> In x l.
Proof.
  revert i. induction l as [|y l IH]; simpl; intros i H; [discriminate|].
  destruct (String.eqb_spec x y) as [->|_]; [left; reflexivity|].
  destruct (py_index x l) as [j|] eqn:E; [|discriminate].
  right. apply (IH j). reflexivity.
Qed.

Lemma py_index_None (x : string) (l : list string) :
  py_index x l = None <-> ~ In x l.
Proof.
  induction l as [|y l IH]; simpl.
  - split; [intros _ H; exact H | reflexivity].
  - destruct (String.eqb_spec x y) as [->|Hne].
    + split; [discriminate | intros H; exfalso; apply H; left; reflexivity].
    + destruct (py_index x l) as [j|] eqn:E; simpl.
      * split; [discriminate|]. intros H. exfalso. apply H. right.
        apply (py_index_Some_In x l j E).
      * split; [|reflexivity]. intros _ [Hy|Hin]; [apply Hne; symmetry; exact Hy|].
        apply (proj1 IH eq_refl). exact Hin.
Qed.

End Prescan.

Section Converters.

Lemma period_index_range (s : string) (i : Z) :
  py_index s period_names = Some i -> i = 0 \/ i = 1 \/ i = 2.
Proof.
  unfold period_names. simpl.
  destruct (String.eqb s "first"); [intros [= <-]; lia|].
  destruct (String.eqb s "second"); [intros [= <-]; lia|].
  destruct (String.eqb s "third"); [intros [= <-]; lia | discriminate].
Qed.

(** C8 (counterexample).  "01", " 2" and "+3" are not among the six
    accepted spellings, yet the parser returns 1, 2 and 3 for them instead
    of raising. *)
Lemma service_period_accepts_other_spellings :
  _service_period "01" = Some (VInt 1) /\
  _service_period " 2" = Some (VInt 2) /\
  _service_period "+3" = Some (VInt 3).
Proof. vm_compute. repeat split. Qed.

(** C8 (amended).  _service_period maps "1", "2", "3" and the exact
    lowercase words "first", "second", "third" to 1, 2, 3; it also maps to
    n in {1, 2, 3} every other string that Python's int() reads as n
    (surrounding whitespace, a sign, leading zeros, underscores between
    digits); every string int() does not read as 1, 2 or 3 that is not one
    of the three words (such as "4", "fourth", "First") raises the typed
    argument error, and argparse then exits with status 2. *)
Theorem service_period_accepted_strings :
  map _service_period ["1"; "2"; "3"; "first"; "second"; "third"] =
    [Some (VInt 1); Some (VInt 2); Some (VInt 3);
     Some (VInt 1); Some (VInt 2); Some (VInt 3)] /\
  (forall s, _service_period s = None <->
     (py_int s <> Some 1 /\ py_int s <> Some 2 /\ py_int s <> Some 3 /\
      ~ In s period_names)) /\
  (forall s v, _service_period s = Some v ->
     (v = VInt 1 \/ v = VInt 2 \/ v = VInt 3) /\
     (In s period_names \/ Some v = option_map VInt (py_int s))) /\
  map _service_period ["4"; "fourth"; "First"; "SECOND"; "0"] =
    [None; None; None; None; None] /\
  query_with_args no_flags ["-s"; "-r"; "5"; "-y"; "2020"; "-p"; "fourth"] = DExit 2 /\
  query_with_args no_flags ["-s"; "-r"; "5"; "-y"; "2020"; "-p"; "4"] = DExit 2.
Proof.
  split; [vm_compute; reflexivity|].
  split.
  { intros s. unfold _service_period.
    destruct (py_int s) as [p|].
    - destruct ((p =? 1) || (p =? 2) || (p =? 3)) eqn:E.
      + split; [discriminate|]. intros (H1 & H2 & H3 & _).
        rewrite !orb_true_iff, !Z.eqb_eq in E.
        destruct E as [[->| ->]| ->]; congruence.
      + rewrite !orb_false_iff, !Z.eqb_neq in E.
        destruct (py_index s period_names) as [i|] eqn:Ei; simpl.
        * split; [discriminate|]. intros (_ & _ & _ & Hn). exfalso.
          apply Hn. exact (py_index_Some_In s period_names i Ei).
        * split; [|reflexivity]. intros _. apply py_index_None in Ei.
          repeat split; try (intros [= Hp]; lia). exact Ei.
    - destruct (py_index s period_names) as [i|] eqn:Ei; simpl.
      + split; [discriminate|]. intros (_ & _ & _ & Hn). exfalso.
        apply Hn. exact (py_index_Some_In s period_names i Ei).
      + split; [|reflexivity]. intros _. apply py_index_None in Ei.
        repeat split; try discriminate. exact Ei. }
  split.
  { intros s v. unfold _service_period.
    assert (Hw : forall i, py_index s period_names = Some i ->
                 option_map (fun i => VInt (i + 1)) (Some i) = Some v ->
                 (v = VInt 1 \/ v = VInt 2 \/ v = VInt 3) /\
                 (In s period_names \/ Some v = option_map VInt (py_int s))).
    { intros i Hi [= <-]. split.
      - destruct (period_index_range s i Hi) as [->|[->| ->]]; auto.
      - left. exact (py_index_Some_In s period_names i Hi). }
    destruct (py_int s) as [p|] eqn:Hp.
    - destruct ((p =? 1) || (p =? 2) || (p =? 3)) eqn:E.
      + intros [= <-]. split; [|right; reflexivity].
        rewrite !orb_true_iff, !Z.eqb_eq in E.
        destruct E as [[->| ->]| ->]; auto.
      + destruct (py_index s period_names) as [i|] eqn:Ei; [|discriminate].
        apply Hw. reflexivity.
    - destruct (py_index s period_names) as [i|] eqn:Ei; [|discriminate].
      apply Hw. reflexivity. }
  vm_compute. repeat split.
Qed.

End Converters.

Section PrescanClaims.

Lemma existsb_In_iff {A} (f : A -> bool) (l : list A) :
  existsb f l = true <-> exists a, In a l /\ f a = true.
Proof. apply existsb_exists. Qed.

(** C10.  The pre-scan _is_present reports a flag iff some raw argument
    merely starts with its short or long text.  So the unrelated argument
    "-sx" switches on select mode's rules (--flag and --row become required
    and --date-end no longer is) though neither "-s" nor "--select" is
    given; the row pre-scan tests "--row_id", so an argument "--row=N"
    never changes it; and the chained spelling "-sf X", which argparse
    reads as --select --flag X, is missed by the flag pre-scan and ends in
    exit status 2. *)
Theorem is_present_prefix_scan :
  (forall args sh lg, _is_present args (Some sh) lg = true <->
     exists a, In a args /\ (startswith a sh = true \/ startswith a lg = true)) /\
  (forall args lg, _is_present args None lg = true <->
     exists a, In a args /\ startswith a lg = true) /\
  (~ In "-s" ["--date-start=2020-01-01"; "--date-end=2020-01-02"; "-sx"] /\
   ~ In "--select" ["--date-start=2020-01-01"; "--date-end=2020-01-02"; "-sx"] /\
   pre_query ["--date-start=2020-01-01"; "--date-end=2020-01-02"; "-sx"] = true /\
   required_of ["--date-start=2020-01-01"; "--date-end=2020-01-02"; "-sx"] "flag" = true /\
   required_of ["--date-start=2020-01-01"; "--date-end=2020-01-02"; "-sx"] "row" = true /\
   required_of ["--date-start=2020-01-01"; "--date-end=2020-01-02"; "-sx"] "date_end" = false /\
   required_of ["--date-start=2020-01-01"; "--date-end=2020-01-02"] "date_end" = true) /\
  (forall args n, pre_row (args ++ [String.append "--row=" n]) = pre_row args) /\
  pre_flag ["-sf"; "X"] = false /\
  query_with_args with_flag_7 ["-sf"; "X"] = DExit 2.
Proof.
  split.
  { intros args sh lg. unfold _is_present. rewrite existsb_In_iff.
    split; intros (a & Ha & Hf); exists a; split; auto; apply orb_true_iff; auto. }
  split.
  { intros args lg. unfold _is_present. apply existsb_In_iff. }
  split.
  { split; [simpl; intuition discriminate|].
    split; [simpl; intuition discriminate|].
    vm_compute. repeat split. }
  split.
  { intros args n. unfold pre_row, _is_present. rewrite existsb_app. simpl.
    rewrite orb_false_r. reflexivity. }
  vm_compute. split; reflexivity.
Qed.

End PrescanClaims.

(* ===================================================================== *)
(* Further properties: _get_date_range edge cases                         *)
(* ===================================================================== *)

(** A malformed date string, as day or as end_date, makes the helper
    return None (RangeNone): strptime runs on both arguments before the
    first timedelta is added, so no OverflowError or TypeError escapes. *)
Theorem date_range_malformed_string (s : string) (a : date_arg) (b : option date_arg) :
  strptime_ymd s = None ->
  get_date_range (ArgStr s) b = RangeNone /\
  get_date_range a (Some (ArgStr s)) = RangeNone.
Proof.
  intros Hs. unfold get_date_range. simpl. rewrite Hs. split; [reflexivity|].
  destruct (parse_date_arg a); reflexivity.
Qed.

Lemma date_range_malformed_string_witness :
  get_date_range (ArgStr "2021-02-29") None = RangeNone /\
  get_date_range (ArgDate (PyDate MAXORDINAL false)) (Some (ArgStr "2021-02-29")) =
    RangeNone.
Proof.
  destruct (date_range_malformed_string "2021-02-29" (ArgDate (PyDate MAXORDINAL false)) None)
    as [H1 H2]; [vm_compute; reflexivity|].
  split; assumption.
Defined.

(** Bounds of different kinds (a date object against a datetime, which is
    what a string becomes) make the helper raise TypeError at the first
    comparison of the loop, whatever their order; the error is not
    caught. *)
Theorem date_range_mixed_kinds_raise (a b : date_arg) (d e : pydate) :
  parse_date_arg a = Some d -> parse_date_arg b = Some e ->
  is_dt d <> is_dt e -> ord d < MAXORDINAL ->
  get_date_range a (Some b) = RangeRaise TypeError.
Proof.
  intros Ha Hb Hk Hd. unfold get_date_range. rewrite Ha, Hb.
  unfold add_day. destruct (Z.ltb_spec (ord d) MAXORDINAL) as [_|]; [|lia].
  simpl. unfold date_lt. simpl.
  destruct (is_dt d), (is_dt e); simpl; [congruence | reflexivity | reflexivity | congruence].
Qed.

Lemma date_range_mixed_kinds_raise_witness :
  get_date_range (ArgDate (PyDate 737425 false)) (Some (ArgStr "2020-01-05")) =
    RangeRaise TypeError.
Proof.
  apply (date_range_mixed_kinds_raise _ _ (PyDate 737425 false) (PyDate 737429 true));
    vm_compute; first [reflexivity | discriminate].
Defined.

(** With date.max (9999-12-31) as day and any valid end_date, the helper
    raises OverflowError: it adds one day to the start before comparing. *)
Theorem date_range_max_overflow (a b : date_arg) (d e : pydate) :
  parse_date_arg a = Some d -> parse_date_arg b = Some e ->
  MAXORDINAL <= ord d ->
  get_date_range a (Some b) = RangeRaise OverflowError.
Proof.
  intros Ha Hb Hd. unfold get_date_range. rewrite Ha, Hb.
  unfold add_day. destruct (Z.ltb_spec (ord d) MAXORDINAL); [lia | reflexivity].
Qed.

Lemma date_range_max_overflow_witness :
  get_date_range (ArgStr "9999-12-31") (Some (ArgStr "2020-01-01")) =
    RangeRaise OverflowError.
Proof.
  apply (date_range_max_overflow _ _ (PyDate MAXORDINAL true) D_2020_01_01);
    vm_compute; first [reflexivity | discriminate].
Defined.

(** Witness of the lemma date_range_increasing: 2020-01-30 to 2020-02-02
    is the four consecutive days. *)
Lemma date_range_increasing_witness :
  get_date_range (ArgStr "2020-01-30") (Some (ArgStr "2020-02-02")) =
  RangeOk (map (at_kind true) (zrange 737454 737458)).
Proof.
  apply (date_range_increasing _ _ (PyDate 737454 true) (PyDate 737457 true));
    vm_compute; first [reflexivity | discriminate].
Defined.

(* ===================================================================== *)
(* Further properties: insert, delete, get_latest_day, get_full_table     *)
(* ===================================================================== *)

Lemma insert_processed_days_no_effect_witness :
  insert (processed_days "public" true) (DbState true ∅)
    (ArgStr "2020-01-01") (Some (ArgStr "2020-01-03")) = PyOk (false, DbState true ∅) /\
  (false, DbState true ∅) = (false, DbState true ∅).
Proof.
  assert (H : insert (processed_days "public" true) (DbState true ∅)
                (ArgStr "2020-01-01") (Some (ArgStr "2020-01-03")) =
              PyOk (false, DbState true ∅)) by (vm_compute; reflexivity).
  split; [exact H|].
  apply (insert_processed_days_no_effect "public" (DbState true ∅)
           (ArgStr "2020-01-01") (Some (ArgStr "2020-01-03"))).
  exact H.
Defined.

(** Processed_Days.delete never reports success and never changes the
    store: with _index_col "" it sends DELETE ... WHERE  IN (...), which
    the server rejects. *)
Theorem processed_days_delete_no_effect (schema : string) (db : db_state)
    (a : date_arg) (b : option date_arg) (r : bool * db_state) :
  delete (processed_days schema true) db a b = PyOk r -> r = (false, db).
Proof.
  unfold delete. simpl.
  destruct (get_date_range a b); try discriminate; [| congruence].
  unfold exec_sql. destruct (db_up db); simpl; congruence.
Qed.

Lemma processed_days_delete_no_effect_witness :
  delete (processed_days "public" true) (DbState true {[737425]})
    (ArgStr "2020-01-01") None = PyOk (false, DbState true {[737425]}) /\
  (false, DbState true {[737425]}) = (false, DbState true {[737425]}).
Proof.
  assert (H : delete (processed_days "public" true) (DbState true {[737425]})
                (ArgStr "2020-01-01") None = PyOk (false, DbState true {[737425]}))
    by (vm_compute; reflexivity).
  split; [exact H|].
  apply (processed_days_delete_no_effect "public" _ (ArgStr "2020-01-01") None).
  exact H.
Defined.

(** Processed_Days.get_latest_day never reports a day: with an engine it
    returns None for every store state (its SELECT MAX() is rejected and
    the error swallowed); without one it raises AttributeError. *)
Theorem processed_days_latest_day_never_a_day (schema : string) (engine : bool)
    (db : db_state) :
  get_latest_day (processed_days schema engine) db =
  if engine then PyOk None else PyRaise AttributeError.
Proof.
  destruct engine; unfold get_latest_day, exec_sql; simpl; [|reflexivity].
  destruct (db_up db); reflexivity.
Qed.

(** Flagged_Data.get_full_table refuses every read that has a
    service_key column, so also a read of the table its own _creation_sql
    defines (flag_id, service_key, row_id): its _expected_cols is
    {flag_id, row_id}. *)
Theorem flagged_data_full_table_refuses_service_key (schema : string) (engine : bool)
    (cols : list string) (rows : list (list string)) :
  In "service_key" cols ->
  get_full_table (flagged_data schema engine) (SqlRows cols rows) = PyOk None.
Proof.
  intros Hin. unfold get_full_table. destruct engine; [|reflexivity]. simpl.
  destruct (set_eqb cols ["flag_id"; "row_id"]) eqn:E; [|reflexivity].
  pose proof (proj1 (set_eqb_spec _ _) E) as E'. apply E' in Hin. simpl in Hin.
  destruct Hin as [H|[H|[]]]; discriminate.
Qed.

Lemma flagged_data_full_table_refuses_service_key_witness :
  get_full_table (flagged_data "public" true)
    (SqlRows ["flag_id"; "service_key"; "row_id"] []) = PyOk None.
Proof.
  apply flagged_data_full_table_refuses_service_key. simpl. right. left. reflexivity.
Defined.

Lemma get_full_table_set_declared_witness :
  get_full_table (flagged_data "public" true) SqlReadFailed = PyOk None /\
  (get_full_table (flagged_data "public" true) (SqlRows ["row_id"; "flag_id"] [["1"; "2"]]) =
     PyOk (Some (Frame None ["row_id"; "flag_id"] [["1"; "2"]])) <->
   (forall x, In x ["row_id"; "flag_id"] <-> In x ["flag_id"; "row_id"])).
Proof.
  destruct (get_full_table_set_declared (flagged_data "public" true) ["flag_id"; "row_id"])
    as (H1 & _ & H3); [reflexivity | reflexivity |].
  split; [exact H1|].
  exact (proj1 (H3 (SqlRows ["row_id"; "flag_id"] [["1"; "2"]]) _ eq_refl)).
Defined.

(* ===================================================================== *)
(* Further properties: the schema and table lifecycle                     *)
(* ===================================================================== *)

(** Processed_Days.create_table always returns False, because its
    _creation_sql has a column "service_" with no type.  It still creates
    the schema first when the server is up, so the call has a lasting
    effect although it reports failure. *)
Theorem create_table_processed_days_fails (schema : string) (c : catalog) :
  create_table (processed_days schema true) (processed_days_creation_sql schema) c =
  (false, if cat_up c then Catalog true ({[schema]} ∪ cat_schemas c) (cat_rels c) else c).
Proof.
  unfold create_table, create_schema, run_ddl, exec_ddl.
  destruct (cat_up c); reflexivity.
Qed.

(** On a live server where flagged_data does not exist yet,
    Flagged_Data.create_table succeeds exactly when the schema holds a
    flags table with a unique flag_id and a service_periods table with a
    unique service_key, the targets of its REFERENCES clauses. *)
Theorem create_table_flagged_data_needs_references (schema : string) (c : catalog) :
  cat_up c = true -> cat_rels c !! (schema, "flagged_data") = None ->
  fst (create_table (flagged_data schema true) (flagged_data_creation_sql schema) c) = true <->
  ref_ok c (schema, "flags", "flag_id") = true /\
  ref_ok c (schema, "service_periods", "service_key") = true.
Proof.
  intros Hup Hnone. unfold create_table, create_schema, run_ddl.
  unfold exec_ddl at 1. rewrite Hup. cbn -[ref_ok bool_decide].
  rewrite bool_decide_true by set_solver. cbn -[ref_ok]. rewrite Hnone.
  change (ref_ok (Catalog true ({[schema]} ∪ cat_schemas c) (cat_rels c))) with (ref_ok c).
  destruct (ref_ok c (schema, "flags", "flag_id")), (ref_ok c (schema, "service_periods", "service_key"));
    simpl; split; intros H; first [reflexivity | split; reflexivity | discriminate H
                                   | destruct H as [H1 H2]; discriminate].
Qed.

Definition demo_catalog : catalog :=
  Catalog true {["public"]}
    (<[("public", "flags") := RelInfo ["flag_id"] []]>
      {[("public", "service_periods") := RelInfo ["service_key"] []]}).

Lemma create_table_flagged_data_needs_references_witness :
  fst (create_table (flagged_data "public" true) (flagged_data_creation_sql "public")
         demo_catalog) = true.
Proof.
  apply (create_table_flagged_data_needs_references "public" demo_catalog);
    [reflexivity | vm_compute; reflexivity | vm_compute; split; reflexivity].
Defined.

(** A successful create_table can be repeated: the second call returns
    True and changes nothing (CREATE SCHEMA and CREATE TABLE both carry IF
    NOT EXISTS). *)
Theorem create_table_repeatable (t : table_obj) (cs : create_stmt) (c c' : catalog) :
  create_table t cs c = (true, c') -> create_table t cs c' = (true, c').
Proof.
  unfold create_table, create_schema, run_ddl.
  destruct (t_engine t); simpl; [|discriminate].
  unfold exec_ddl at 1. destruct (cat_up c) eqn:Hup; simpl; [|discriminate].
  set (c1 := Catalog true ({[t_schema t]} ∪ cat_schemas c) (cat_rels c)).
  unfold exec_ddl. simpl.
  destruct (existsb _ (cs_columns cs)) eqn:Hty; simpl; [discriminate|].
  destruct (bool_decide (cs_schema cs ∈ {[t_schema t]} ∪ cat_schemas c)) eqn:Hs;
    simpl; [|discriminate].
  assert (Hsch : forall S : gset string, t_schema t ∈ S -> {[t_schema t]} ∪ S = S)
    by (intros S HS; set_solver).
  destruct (cat_rels c !! (cs_schema cs, cs_table cs)) as [ri|] eqn:Hk.
  - intros [= <-]. simpl. rewrite Hsch by set_solver. rewrite Hs. simpl.
    rewrite Hk. reflexivity.
  - destruct (forallb _ _); [|discriminate]. intros [= <-]. simpl.
    rewrite Hsch by set_solver. simpl.
    rewrite Hs. simpl.
    case_decide as Hm; [|apply bool_decide_eq_true in Hs; contradiction].
    rewrite lookup_insert. case_decide; [reflexivity | congruence].
Qed.

Lemma create_table_repeatable_witness :
  create_table (flagged_data "public" true) (flagged_data_creation_sql "public")
    (snd (create_table (flagged_data "public" true) (flagged_data_creation_sql "public")
            demo_catalog)) =
  (true, snd (create_table (flagged_data "public" true) (flagged_data_creation_sql "public")
                demo_catalog)).
Proof.
  apply (create_table_repeatable _ _ demo_catalog). vm_compute. reflexivity.
Defined.



(** After a successful delete_table the table is gone, every other
    relation is untouched, and calling delete_table again returns True
    without changing anything (DROP TABLE IF EXISTS). *)
Theorem delete_table_removes_only_its_relation (t : table_obj) (c c' : catalog) :
  delete_table t c = (true, c') ->
  cat_rels c' !! (t_schema t, t_table_name t) = None /\
  (forall k, k <> (t_schema t, t_table_name t) -> cat_rels c' !! k = cat_rels c !! k) /\
  delete_table t c' = (true, c').
Proof.
  unfold delete_table, run_ddl. destruct (t_engine t) eqn:He; simpl; [|discriminate].
  unfold exec_ddl at 1. destruct (cat_up c) eqn:Hup; simpl; [|discriminate].
  destruct (cat_rels c !! (t_schema t, t_table_name t)) as [ri|] eqn:Hk.
  - destruct (referenced_by_other c _); [discriminate|]. intros [= <-]. simpl.
    split; [apply lookup_delete_eq|]. split.
    + intros k Hne. apply lookup_delete_ne. congruence.
    + unfold exec_ddl. simpl. rewrite lookup_delete_eq. reflexivity.
  - intros [= <-]. split; [exact Hk|]. split; [reflexivity|].
    unfold exec_ddl. rewrite Hup. simpl. rewrite Hk. reflexivity.
Qed.

Lemma delete_table_removes_only_its_relation_witness :
  delete_table (flagged_data "public" true) (snd (create_table (flagged_data "public" true)
      (flagged_data_creation_sql "public") demo_catalog)) =
  (true, demo_catalog) /\
  cat_rels demo_catalog !! ("public", "flagged_data") = None.
Proof.
  assert (H : delete_table (flagged_data "public" true)
                (snd (create_table (flagged_data "public" true)
                   (flagged_data_creation_sql "public") demo_catalog)) =
              (true, demo_catalog)) by (vm_compute; reflexivity).
  split; [exact H|].
  destruct (delete_table_removes_only_its_relation _ _ _ H) as [H1 _]. exact H1.
Defined.

(** Without an engine every Table method that checks for one returns
    False (get_full_table None) and changes nothing; get_latest_day, which
    does not check, raises (AttributeError on None.connect(), or the
    TypeError of a None _index_col first). *)
Theorem methods_without_engine (t : table_obj) (cs : create_stmt) (c : catalog)
    (db : db_state) (a : date_arg) (b : option date_arg) (r : sql_read) :
  t_engine t = false ->
  create_schema t c = (false, c) /\ delete_schema t c = (false, c) /\
  create_table t cs c = (false, c) /\ delete_table t c = (false, c) /\
  insert t db a b = PyOk (false, db) /\ delete t db a b = PyOk (false, db) /\
  get_full_table t r = PyOk None /\
  get_latest_day t db =
    PyRaise (match t_index_col t with None => TypeError | Some _ => AttributeError end).
Proof.
  intros He. unfold create_schema, delete_schema, create_table, delete_table,
    insert, delete, get_full_table, get_latest_day.
  rewrite He. simpl. repeat split. destruct (t_index_col t); reflexivity.
Qed.

Lemma methods_without_engine_witness :
  create_table (processed_days "public" false) (processed_days_creation_sql "public")
    demo_catalog = (false, demo_catalog).
Proof.
  destruct (methods_without_engine (processed_days "public" false)
              (processed_days_creation_sql "public") demo_catalog (DbState true ∅)
              (ArgStr "2020-01-01") None SqlReadFailed)
    as (_ & _ & H & _); [reflexivity | exact H].
Defined.

(* ===================================================================== *)
(* Further properties: Table.__init__ and the subclass constructors       *)
(* ===================================================================== *)

(** Without an engine, Table.__init__ discards the user and passwd it was
    given: it prompts for both (skipping end-of-file reads) and builds
    postgresql://<answer>:<answer>@hostname/db_name from the answers. *)
Theorem table_init_prompts_for_credentials (user passwd : option string)
    (h d u p : string) (inp inp1 inp2 : list stdin_event) :
  _prompt inp = Some (u, inp1) -> _prompt inp1 = Some (p, inp2) ->
  table_init user passwd (Some h) (Some d) None inp =
  InitEngine (String.append "postgresql://" (String.append u (String.append ":"
               (String.append p (String.append "@" (String.append h
               (String.append "/" d))))))) inp2.
Proof.
  intros H1 H2. unfold table_init. rewrite H1, H2. reflexivity.
Qed.

Lemma table_init_prompts_for_credentials_witness :
  table_init (Some "alice") (Some "secret") (Some "localhost") (Some "aperture") None
    [StdinEOF; StdinLine "bob"; StdinLine "pw"] =
  InitEngine "postgresql://bob:pw@localhost/aperture" [].
Proof.
  exact (table_init_prompts_for_credentials (Some "alice") (Some "secret") "localhost"
           "aperture" "bob" "pw" [StdinEOF; StdinLine "bob"; StdinLine "pw"]
           [StdinLine "pw"] [] eq_refl eq_refl).
Defined.

(** Neither Processed_Days nor Flagged_Data can be constructed: whatever
    the arguments, the input and the behaviour of create_engine, the
    constructor raises (at the latest the AttributeError on the unset
    self._schema) or waits forever for input. *)
Theorem subclass_init_never_returns (create_engine : string -> option py_exn)
    (user passwd hostname db_name engine : option string) (inp : list stdin_event) :
  subclass_init create_engine user passwd hostname db_name engine inp <> CtorReturns.
Proof.
  unfold subclass_init.
  destruct (table_init _ _ _ _ _ _) as [url rest|e|]; [|discriminate|discriminate].
  destruct (create_engine url); discriminate.
Qed.

(* ===================================================================== *)
(* Proofs: what a successful parse leaves in the namespace                *)
(* ===================================================================== *)

Section ParseInvariant.

Variable p : list opt.
Variable P : namespace -> list string -> Prop.

Definition toks_in (toks : list (string * tok_class)) : Prop :=
  forall x o os ex, In (x, TOpt (Some o) os ex) toks -> In o p.

Definition acts_in (acts : list (opt * list string)) : Prop :=
  forall a, In a acts -> In a.1 p.

(* Every action the parser can run keeps P. *)
Hypothesis P_step : forall o ns seen, In o p -> P ns seen ->
  match o_kind o with
  | KStoreTrue => P ((o_dest o, VBool true) :: ns) (o_dest o :: seen)
  | KStore conv =>
      (forall a v, conv a = Some v -> P ((o_dest o, v) :: ns) (o_dest o :: seen)) /\
      P ((o_dest o, VEmptyList) :: ns) (o_dest o :: seen)
  | KHelp => True
  end.

Lemma option_strings_In (s : string) (o : opt) : In (s, o) (option_strings p) -> In o p.
Proof.
  unfold option_strings. intros H. apply in_flat_map in H as (o' & Ho' & Hin).
  apply in_map_iff in Hin as (s' & Heq & _). injection Heq as _ Heq. subst. exact Ho'.
Qed.

Lemma find_exact_In (s : string) (o : opt) : find_exact p s = Some o -> In o p.
Proof.
  unfold find_exact. destruct (List.find _ _) as [[s' o']|] eqn:E; simpl; [|discriminate].
  intros [= <-]. apply find_some in E as [Hin _]. exact (option_strings_In s' o' Hin).
Qed.

Lemma option_tuples_In (s : string) (o : opt) (os : string) (ex : option string) :
  In (o, os, ex) (option_tuples p s) -> In o p.
Proof.
  unfold option_tuples. destruct s as [|c1 [|c2 r]]; try (intros []).
  destruct (is_dash c1 && is_dash c2).
  - destruct (split_eq _) as [[a b]|]; intros H; apply in_map_iff in H as ([s' o'] & Heq & Hf);
      apply filter_In in Hf as [Hf _]; simpl in Heq; injection Heq as Heq _ _; subst;
      exact (option_strings_In _ _ Hf).
  - destruct (is_dash c1); [|intros []].
    intros H. apply in_flat_map in H as ([s' o'] & Hf & Hin). simpl in Hin.
    destruct (String.eqb s' _).
    + destruct Hin as [Heq|[]]. injection Heq as Heq _ _. subst.
      exact (option_strings_In _ _ Hf).
    + destruct (startswith s' _); [|destruct Hin].
      destruct Hin as [Heq|[]]. injection Heq as Heq _ _. subst.
      exact (option_strings_In _ _ Hf).
Qed.

Lemma classify_In (s : string) (o : opt) (os : string) (ex : option string) :
  classify p s = TOpt (Some o) os ex -> In o p.
Proof.
  unfold classify. destruct s as [|c r]; [discriminate|].
  destruct (negb (is_dash c)); [discriminate|].
  destruct (find_exact p (String c r)) as [o1|] eqn:E1;
    [intros [= <- _ _]; exact (find_exact_In _ _ E1)|].
  destruct (String.eqb r ""); [discriminate|].
  assert (Htail : match option_tuples p (String c r) with
                  | [(o0, os0, ex0)] => TOpt (Some o0) os0 ex0
                  | _ :: _ :: _ => TAmbig
                  | [] => if looks_negative_number (String c r) then TPos
                          else if has_space (String c r) then TPos
                          else TOpt None (String c r) None
                  end = TOpt (Some o) os ex -> In o p).
  { destruct (option_tuples p (String c r)) as [|[[o3 os3] ex3] [|t4 l4]] eqn:E4.
    - destruct (looks_negative_number _); [discriminate|].
      destruct (has_space _); discriminate.
    - intros [= <- _ _]. apply (option_tuples_In (String c r) o3 os3 ex3).
      rewrite E4. left. reflexivity.
    - discriminate. }
  destruct (split_eq (String c r)) as [[a b]|] eqn:E2; cbv beta iota zeta; [|exact Htail].
  destruct (find_exact p a) as [o2|] eqn:E3; cbv beta iota zeta; [|exact Htail].
  intros [= <- _ _]. exact (find_exact_In _ _ E3).
Qed.

Lemma classify_all_In (args : list string) : toks_in (classify_all p args).
Proof.
  unfold toks_in. induction args as [|a args IH]; simpl; [intros ? ? ? ? []|].
  destruct (String.eqb a "--").
  - intros x o os ex [H|H]; [discriminate H|]. apply in_map_iff in H as (y & Hy & _). discriminate Hy.
  - intros x o os ex [H|H].
    + injection H as _ H. exact (classify_In a o os ex H).
    + exact (IH x o os ex H).
Qed.

Lemma acts_in_snoc (acts : list (opt * list string)) (o : opt) (l : list string) :
  acts_in acts -> In o p -> acts_in (acts ++ [(o, l)]).
Proof.
  intros Ha Ho a Hin. apply in_app_or in Hin as [Hin|[<-|[]]]; [exact (Ha a Hin) | exact Ho].
Qed.

Lemma chain_In (ex : string) : forall o ostr acts,
  In o p -> acts_in acts ->
  match chain p o ostr ex acts with
  | ChErr => True
  | ChDone acts' => acts_in acts'
  | ChPending acts' o' => acts_in acts' /\ In o' p
  end.
Proof.
  induction ex as [|c r IH]; intros o ostr acts Ho Ha; simpl.
  - destruct (negb (nargs0 o)); [apply acts_in_snoc; assumption | exact I].
  - destruct (negb (nargs0 o)); [apply acts_in_snoc; assumption|].
    destruct (single_dash ostr); [|exact I].
    destruct (find_exact p _) as [o'|] eqn:E; [|exact I].
    pose proof (find_exact_In _ _ E) as Ho'.
    destruct r as [|c' r'].
    + split; [apply acts_in_snoc|]; assumption.
    + apply IH; [exact Ho' | apply acts_in_snoc; assumption].
Qed.

Lemma take_actions_P (acts : list (opt * list string)) : forall ns seen ns' seen',
  acts_in acts -> P ns seen -> take_actions acts ns seen = TkOk ns' seen' -> P ns' seen'.
Proof.
  induction acts as [|[o args] acts IH]; intros ns seen ns' seen' Ha HP; simpl.
  - intros [= <- <-]. exact HP.
  - assert (Ho : In o p) by exact (Ha (o, args) (or_introl eq_refl)).
    assert (Ha' : acts_in acts) by (intros a Hin; apply Ha; right; exact Hin).
    pose proof (P_step o ns seen Ho HP) as Hs.
    destruct (o_kind o) as [|conv|]; [ | | discriminate].
    + apply IH; assumption.
    + destruct args as [|a [|b rest]]; try discriminate.
      destruct Hs as [Hs He].
      destruct (String.eqb a "--"); [apply IH; assumption|].
      destruct (conv a) as [v|] eqn:Hv; [|discriminate].
      apply IH; [exact Ha' | exact (Hs a v Hv)].
Qed.

Lemma then_take_P (acts : list (opt * list string)) (ns : namespace) (seen : list string)
    (k : namespace -> list string -> parse_outcome) (ns' : namespace) :
  acts_in acts -> P ns seen -> then_take acts ns seen k = ParseOk ns' ->
  exists ns1 seen1, P ns1 seen1 /\ k ns1 seen1 = ParseOk ns'.
Proof.
  unfold then_take. intros Ha HP.
  destruct (take_actions acts ns seen) as [| |ns1 seen1] eqn:E; try discriminate.
  intros Hk. exists ns1, seen1. split; [exact (take_actions_P acts ns seen ns1 seen1 Ha HP E) | exact Hk].
Qed.

Lemma finish_ok (ns : namespace) (seen : list string) (extras : bool) (ns' : namespace) :
  finish p ns seen extras = ParseOk ns' ->
  ns' = ns /\ forall o, In o p -> o_required o = true -> In (o_dest o) seen.
Proof.
  unfold finish.
  destruct (existsb (fun o => o_required o && negb (existsb (String.eqb (o_dest o)) seen)) p)
    eqn:E; [discriminate|].
  destruct extras; [discriminate|]. intros [= <-]. split; [reflexivity|].
  intros o Ho Hr.
  destruct (o_required o && negb (existsb (String.eqb (o_dest o)) seen)) eqn:Ex.
  - exfalso.
    assert (Ht : existsb (fun o => o_required o && negb (existsb (String.eqb (o_dest o)) seen)) p
                 = true) by (apply existsb_exists; exists o; split; assumption).
    congruence.
  - rewrite Hr in Ex. simpl in Ex. apply negb_false_iff in Ex.
    apply existsb_exists in Ex as (d & Hd & Heq). apply String.eqb_eq in Heq. subst. exact Hd.
Qed.

Lemma consume_P (n : nat) : forall toks ns seen extras ns',
  (length toks <= n)%nat -> toks_in toks -> P ns seen ->
  consume p toks ns seen extras = ParseOk ns' ->
  exists seen', P ns' seen' /\ forall o, In o p -> o_required o = true -> In (o_dest o) seen'.
Proof.
  induction n as [|n IH]; intros toks ns seen extras ns' Hlen Ht HP.
  - destruct toks; [|simpl in Hlen; lia]. simpl. intros Hf.
    apply finish_ok in Hf as [-> Hreq]. eauto.
  - destruct toks as [|[x c] rest]; simpl.
    + intros Hf. apply finish_ok in Hf as [-> Hreq]. eauto.
    + assert (Ht' : toks_in rest)
        by (intros y o os ex Hin; apply (Ht y o os ex); right; exact Hin).
      simpl in Hlen.
      destruct c as [|[o|] ostr ex| |].
      * apply (IH rest ns seen true ns'); [lia | assumption | assumption].
      * assert (Ho : In o p) by exact (Ht x o ostr ex (or_introl eq_refl)).
        assert (Hpre : match (match ex with Some e => chain p o ostr e [] | None => ChPending [] o end) with
                       | ChErr => True
                       | ChDone acts' => acts_in acts'
                       | ChPending acts' o' => acts_in acts' /\ In o' p
                       end).
        { destruct ex as [e|]; [apply chain_In; [exact Ho | intros a []] | split; [intros a [] | exact Ho]]. }
        destruct (match ex with Some e => chain p o ostr e [] | None => ChPending [] o end)
          as [|acts|acts o'].
        -- discriminate.
        -- intros H. apply then_take_P in H as (ns1 & seen1 & HP1 & Hk); [|exact Hpre|exact HP].
           exact (IH rest ns1 seen1 extras ns' ltac:(lia) Ht' HP1 Hk).
        -- destruct Hpre as [Ha Ho']. destruct (nargs0 o').
           ++ intros H. apply then_take_P in H as (ns1 & seen1 & HP1 & Hk);
                [|apply acts_in_snoc; assumption|exact HP].
              exact (IH rest ns1 seen1 extras ns' ltac:(lia) Ht' HP1 Hk).
           ++ destruct rest as [|[a c'] rest']; [discriminate|].
              destruct c'; try discriminate.
              intros H. apply then_take_P in H as (ns1 & seen1 & HP1 & Hk);
                [|apply acts_in_snoc; assumption|exact HP].
              simpl in Hlen.
              refine (IH rest' ns1 seen1 extras ns' ltac:(lia) _ HP1 Hk).
              intros y o2 os2 ex2 Hin. apply (Ht' y o2 os2 ex2). right. exact Hin.
      * apply (IH rest ns seen true ns'); [lia | assumption | assumption].
      * discriminate.
      * apply (IH rest ns seen true ns'); [lia | assumption | assumption].
Qed.

Lemma parse_args_P (args : list string) (ns : namespace) :
  P (defaults p) [] -> parse_args p args = ParseOk ns ->
  exists seen, P ns seen /\ forall o, In o p -> o_required o = true -> In (o_dest o) seen.
Proof.
  unfold parse_args. intros HP. destruct (existsb is_ambig _); [discriminate|].
  apply (consume_P (length (classify_all p args))); [lia | apply classify_all_In | exact HP].
Qed.

End ParseInvariant.

Section ParserValues.

(* Every binding holds a value its option can store, and every option
   seen by the parser has left a value other than None. *)
Definition ns_ok (ns : namespace) (seen : list string) : Prop :=
  Forall (fun kv => arg_value_ok kv.1 kv.2) ns /\
  forall d, In d seen -> ns_get ns d <> VNone.

Lemma ns_get_cons (k : string) (v : pyval) (ns : namespace) (d : string) :
  ns_get ((k, v) :: ns) d = if String.eqb k d then v else ns_get ns d.
Proof. unfold ns_get. simpl. destruct (String.eqb k d); reflexivity. Qed.

Lemma ns_get_ok (ns : namespace) (d : string) :
  Forall (fun kv => arg_value_ok kv.1 kv.2) ns -> arg_value_ok d VNone ->
  arg_value_ok d (ns_get ns d).
Proof.
  induction ns as [|[k v] ns IH]; intros HF Hd; [exact Hd|].
  rewrite ns_get_cons. inversion HF as [|? ? Hkv HF']; subst.
  destruct (String.eqb_spec k d) as [<-|_]; [exact Hkv | apply IH; assumption].
Qed.

Lemma ns_ok_push (d : string) (v : pyval) (ns : namespace) (seen : list string) :
  arg_value_ok d v -> v <> VNone -> ns_ok ns seen -> ns_ok ((d, v) :: ns) (d :: seen).
Proof.
  intros Hv Hn [HF Hs]. split; [constructor; assumption|].
  intros d' [<-|Hd']; rewrite ns_get_cons; [rewrite String.eqb_refl; exact Hn|].
  destruct (String.eqb d d'); [exact Hn | apply Hs; exact Hd'].
Qed.

Lemma service_date_value (a : string) (v : pyval) :
  _service_date a = Some v ->
  exists y m d, valid_ymd y m d /\ v = VDate (PyDate (ymd2ord y m d) true).
Proof.
  unfold _service_date, strptime_ymd.
  destruct (re_ymd a) as [[[[y m] d] r]|]; [|discriminate].
  destruct r; [|discriminate].
  unfold mk_date. destruct (_ && _) eqn:E; [|discriminate]. simpl. intros [= <-].
  rewrite !andb_true_iff, !Z.leb_le in E. exists y, m, d.
  unfold valid_ymd. split; [lia | reflexivity].
Qed.

Lemma service_year_value (a : string) (v : pyval) :
  _service_year a = Some v ->
  exists y, 1 <= y <= 9999 /\ v = VDate (PyDate (ymd2ord y 1 1) true).
Proof.
  unfold _service_year, strptime_y.
  destruct (head (re_year a)) as [[y r]|]; [|discriminate].
  destruct r; [|discriminate].
  unfold mk_date. destruct (_ && _) eqn:E; [|discriminate]. simpl. intros [= <-].
  rewrite !andb_true_iff, !Z.leb_le in E. exists y. split; [lia | reflexivity].
Qed.

Lemma limit_value (a : string) (v : pyval) :
  _limit a = Some v -> exists l, 0 < l /\ v = VInt l.
Proof.
  unfold _limit. destruct (py_int a) as [l|]; [|discriminate].
  destruct (Z.ltb_spec 0 l); [|discriminate]. intros [= <-]. eauto.
Qed.

Lemma service_period_value (a : string) (v : pyval) :
  _service_period a = Some v -> v = VInt 1 \/ v = VInt 2 \/ v = VInt 3.
Proof.
  unfold _service_period.
  assert (Hn : option_map (fun i => VInt (i + 1)) (py_index a period_names) = Some v ->
               v = VInt 1 \/ v = VInt 2 \/ v = VInt 3).
  { destruct (py_index a period_names) as [i|] eqn:Ei; [|discriminate].
    intros [= <-]. destruct (period_index_range a i Ei) as [->|[->| ->]]; auto. }
  destruct (py_int a) as [q|]; [|exact Hn].
  destruct ((q =? 1) || (q =? 2) || (q =? 3)) eqn:E; [|exact Hn].
  intros [= <-]. rewrite !orb_true_iff, !Z.eqb_eq in E.
  destruct E as [[->| ->]| ->]; auto.
Qed.

Lemma create_parser_step (args : list string) (o : opt) (ns : namespace) (seen : list string) :
  In o (_create_parser args) -> ns_ok ns seen ->
  match o_kind o with
  | KStoreTrue => ns_ok ((o_dest o, VBool true) :: ns) (o_dest o :: seen)
  | KStore conv =>
      (forall a v, conv a = Some v -> ns_ok ((o_dest o, v) :: ns) (o_dest o :: seen)) /\
      ns_ok ((o_dest o, VEmptyList) :: ns) (o_dest o :: seen)
  | KHelp => True
  end.
Proof.
  intros Ho Hns. unfold _create_parser in Ho. simpl in Ho.
  destruct Ho as [<-|[<-|[<-|[<-|[<-|[<-|[<-|[<-|[<-|[<-|[]]]]]]]]]]]; simpl;
    try (split; [|apply ns_ok_push;
                  [unfold arg_value_ok; simpl; right; left; reflexivity | discriminate | exact Hns]]).
  - exact I.
  - apply ns_ok_push; [unfold arg_value_ok; simpl; eauto | discriminate | exact Hns].
  - intros a v Hv. destruct (service_date_value a v Hv) as (y & m & d & Hd & ->).
    apply ns_ok_push; [|discriminate|exact Hns].
    unfold arg_value_ok; simpl. right; right. exists y, m, d. auto.
  - intros a v Hv. destruct (service_date_value a v Hv) as (y & m & d & Hd & ->).
    apply ns_ok_push; [|discriminate|exact Hns].
    unfold arg_value_ok; simpl. right; right. exists y, m, d. auto.
  - apply ns_ok_push; [unfold arg_value_ok; simpl; eauto | discriminate | exact Hns].
  - intros a v [= <-]. apply ns_ok_push; [|discriminate|exact Hns].
    unfold arg_value_ok; simpl. right; right. eauto.
  - intros a v Hv. destruct (limit_value a v Hv) as (l & Hl & ->).
    apply ns_ok_push; [|discriminate|exact Hns].
    unfold arg_value_ok; simpl. right; right. eauto.
  - intros a v Hv. unfold int_type in Hv.
    destruct (py_int a) as [r|]; simpl in Hv; [|discriminate]. injection Hv as <-.
    apply ns_ok_push; [|discriminate|exact Hns].
    unfold arg_value_ok; simpl. right; right. eauto.
  - intros a v Hv. destruct (service_year_value a v Hv) as (y & Hy & ->).
    apply ns_ok_push; [|discriminate|exact Hns].
    unfold arg_value_ok; simpl. right; right. eauto.
  - intros a v Hv.
    assert (Hv' := service_period_value a v Hv).
    apply ns_ok_push; [| destruct Hv' as [->|[->| ->]]; discriminate | exact Hns].
    unfold arg_value_ok; simpl. right; right. exact Hv'.
Qed.

Lemma create_parser_defaults (args : list string) : ns_ok (defaults (_create_parser args)) [].
Proof.
  split; [|intros d []].
  unfold defaults, _create_parser. simpl.
  repeat constructor; unfold arg_value_ok; simpl; first [left; reflexivity | eexists; reflexivity].
Qed.

Lemma parse_cl_args_values (args : list string) (ns : namespace) :
  _parse_cl_args args = ParseOk ns ->
  (forall d, arg_value_ok d VNone -> arg_value_ok d (ns_get ns d)) /\
  (forall d, required_of args d = true -> ns_get ns d <> VNone).
Proof.
  unfold _parse_cl_args. intros H.
  destruct (parse_args_P (_create_parser args) ns_ok (create_parser_step args) args ns
              (create_parser_defaults args) H) as (seen & [HF Hseen] & Hreq).
  split.
  - intros d Hd. apply ns_get_ok; assumption.
  - intros d Hd. unfold required_of in Hd. apply existsb_exists in Hd as (o & Ho & Hod).
    apply andb_true_iff in Hod as [Hdest Hr]. apply String.eqb_eq in Hdest. subst d.
    apply Hseen, Hreq; assumption.
Qed.

(* query_with_args after a successful parse: an unknown flag name, or the
   mode chosen from the namespace with args.flag replaced by the id. *)
Lemma query_with_args_parsed (lookup : flag_lookup) (args : list string) (ns : namespace) :
  _parse_cl_args args = ParseOk ns ->
  (exists q, ns_get ns "flag" = VStr q /\ lookup q = None /\
             query_with_args lookup args = DFlagUnknown q) \/
  exists flag,
    (flag = ns_get ns "flag" \/
     exists q id, ns_get ns "flag" = VStr q /\ lookup q = Some id /\ flag = VInt id) /\
    query_with_args lookup args =
      if truthy (ns_get ns "select") then _handle_flag_query flag ns
      else if truthy (ns_get ns "date_start") then
        DRangeQuery (ns_get ns "date_start") (ns_get ns "date_end")
      else if truthy (ns_get ns "daily") then DNextDay else DInsufficient.
Proof.
  intros Hp. unfold query_with_args. rewrite Hp.
  destruct (ns_get ns "flag") as [|b|q|z|dd|] eqn:Hf; cbv beta iota zeta;
    try (right; eexists; split; [left; reflexivity | reflexivity]).
  destruct (truthy (VStr q)).
  - destruct (lookup q) as [id|] eqn:Hl.
    + right. exists (VInt id). split; [right; eauto | reflexivity].
    + left. exists q. auto.
  - right. exists (VStr q). split; [left; reflexivity | reflexivity].
Qed.

End ParserValues.

(** Whenever query_with_args calls query_by_flag_id, the limit is
    positive: the --limit value, which _limit only lets through when
    int() reads it as at least 1, or the default 100; and the id is the
    one the client's lookup gives for the --flag string. *)
Theorem flag_query_positive_limit (lookup : flag_lookup) (args : list string) (id lim : Z) :
  query_with_args lookup args = DFlagQuery id lim ->
  0 < lim /\
  exists ns q, _parse_cl_args args = ParseOk ns /\ ns_get ns "flag" = VStr q /\
    lookup q = Some id /\
    (ns_get ns "limit" = VInt lim \/
     ((ns_get ns "limit" = VNone \/ ns_get ns "limit" = VEmptyList) /\ lim = 100)).
Proof.
  intros Hq.
  destruct (_parse_cl_args args) as [ns| |] eqn:Hp;
    [| unfold query_with_args in Hq; rewrite Hp in Hq; discriminate
     | unfold query_with_args in Hq; rewrite Hp in Hq; discriminate].
  destruct (parse_cl_args_values args ns Hp) as [Hv _].
  assert (Hfv := Hv "flag" ltac:(unfold arg_value_ok; simpl; left; reflexivity)).
  assert (Hlv := Hv "limit" ltac:(unfold arg_value_ok; simpl; left; reflexivity)).
  unfold arg_value_ok in Hfv, Hlv. simpl in Hfv, Hlv.
  destruct (query_with_args_parsed lookup args ns Hp) as [(q & _ & _ & Hu)|(flag & Hflag & Hd)];
    [congruence|].
  rewrite Hq in Hd.
  destruct (truthy (ns_get ns "select")); [|
    destruct (truthy (ns_get ns "date_start")); [|destruct (truthy (ns_get ns "daily"))];
    discriminate].
  unfold _handle_flag_query in Hd.
  destruct (truthy flag); [|destruct (truthy (ns_get ns "row")); discriminate].
  destruct flag as [| | |fid| |]; try discriminate.
  injection Hd as <- Hlim.
  destruct Hflag as [Hf | (q & id' & Hq' & Hl & Heq)].
  - rewrite <- Hf in Hfv. destruct Hfv as [Hc | [Hc | [s Hc]]]; discriminate.
  - injection Heq as <-.
    destruct Hlv as [Hl0 | [Hl0 | (l & Hlpos & Hl0)]]; rewrite Hl0 in Hlim; simpl in Hlim.
    + split; [lia|]. exists ns, q. repeat split; auto.
    + split; [lia|]. exists ns, q. repeat split; auto.
    + destruct (Z.eqb_spec l 0) as [E|E]; simpl in Hlim; [lia|]. subst lim.
      split; [lia|]. exists ns, q. repeat split; auto.
Qed.

Lemma flag_query_positive_limit_witness :
  0 < 5 /\
  exists ns q, _parse_cl_args ["-s"; "-f"; "X"; "-l"; "5"] = ParseOk ns /\
    ns_get ns "flag" = VStr q /\ with_flag_7 q = Some 7 /\
    (ns_get ns "limit" = VInt 5 \/
     ((ns_get ns "limit" = VNone \/ ns_get ns "limit" = VEmptyList) /\ 5 = 100)).
Proof.
  apply (flag_query_positive_limit with_flag_7 ["-s"; "-f"; "X"; "-l"; "5"] 7 5).
  vm_compute. reflexivity.
Defined.

(** Whenever query_with_args calls query_by_row_id, it passes the table
    name "service_periods", a nonzero int row, a year that is None or
    1 January of a year in 1..9999, and a period that is None or 1, 2 or
    3. *)
Theorem row_query_values (lookup : flag_lookup) (args : list string) (tb : string)
    (row year period : pyval) :
  query_with_args lookup args = DRowQuery tb row year period ->
  tb = "service_periods" /\ (exists r, row = VInt r /\ r <> 0) /\
  (year = VNone \/ year = VEmptyList \/
   exists y, 1 <= y <= 9999 /\ year = VDate (PyDate (ymd2ord y 1 1) true)) /\
  (period = VNone \/ period = VEmptyList \/ period = VInt 1 \/ period = VInt 2 \/ period = VInt 3).
Proof.
  intros Hq.
  destruct (_parse_cl_args args) as [ns| |] eqn:Hp;
    [| unfold query_with_args in Hq; rewrite Hp in Hq; discriminate
     | unfold query_with_args in Hq; rewrite Hp in Hq; discriminate].
  destruct (parse_cl_args_values args ns Hp) as [Hv _].
  assert (Hrv := Hv "row" ltac:(unfold arg_value_ok; simpl; left; reflexivity)).
  assert (Hyv := Hv "year" ltac:(unfold arg_value_ok; simpl; left; reflexivity)).
  assert (Hpv := Hv "service_period" ltac:(unfold arg_value_ok; simpl; left; reflexivity)).
  unfold arg_value_ok in Hrv, Hyv, Hpv. simpl in Hrv, Hyv, Hpv.
  destruct (query_with_args_parsed lookup args ns Hp) as [(q & _ & _ & Hu)|(flag & _ & Hd)];
    [congruence|].
  rewrite Hq in Hd.
  destruct (truthy (ns_get ns "select")); [|
    destruct (truthy (ns_get ns "date_start")); [|destruct (truthy (ns_get ns "daily"))];
    discriminate].
  unfold _handle_flag_query in Hd.
  destruct (truthy flag); [destruct flag; discriminate|].
  destruct (truthy (ns_get ns "row")) eqn:Hrt; [|discriminate].
  injection Hd as -> -> -> ->.
  split; [reflexivity|]. split; [|split; assumption].
  destruct Hrv as [Hr | [Hr | (r & Hr)]]; rewrite Hr in Hrt; simpl in Hrt; [discriminate ..|].
  exists r. split; [exact Hr|]. destruct (Z.eqb_spec r 0); [discriminate | assumption].
Qed.

Lemma row_query_values_witness :
  query_with_args no_flags ["-s"; "-r"; "5"; "-y"; "2020"; "-p"; "first"] =
    DRowQuery "service_periods" (VInt 5) (VDate (PyDate 737425 true)) (VInt 1) /\
  "service_periods" = "service_periods".
Proof.
  assert (H : query_with_args no_flags ["-s"; "-r"; "5"; "-y"; "2020"; "-p"; "first"] =
              DRowQuery "service_periods" (VInt 5) (VDate (PyDate 737425 true)) (VInt 1))
    by (vm_compute; reflexivity).
  split; [exact H|].
  destruct (row_query_values _ _ _ _ _ _ H) as [Ht _]. exact Ht.
Defined.

(** Whenever query_with_args calls process_data, the start is a valid
    date (at midnight) and the end is None or a valid date. *)
Theorem range_query_values (lookup : flag_lookup) (args : list string) (s e : pyval) :
  query_with_args lookup args = DRangeQuery s e ->
  (exists y m d, valid_ymd y m d /\ s = VDate (PyDate (ymd2ord y m d) true)) /\
  (e = VNone \/ e = VEmptyList \/
   exists y m d, valid_ymd y m d /\ e = VDate (PyDate (ymd2ord y m d) true)).
Proof.
  intros Hq.
  destruct (_parse_cl_args args) as [ns| |] eqn:Hp;
    [| unfold query_with_args in Hq; rewrite Hp in Hq; discriminate
     | unfold query_with_args in Hq; rewrite Hp in Hq; discriminate].
  destruct (parse_cl_args_values args ns Hp) as [Hv _].
  assert (Hsv := Hv "date_start" ltac:(unfold arg_value_ok; simpl; left; reflexivity)).
  assert (Hev := Hv "date_end" ltac:(unfold arg_value_ok; simpl; left; reflexivity)).
  unfold arg_value_ok in Hsv, Hev. simpl in Hsv, Hev.
  destruct (query_with_args_parsed lookup args ns Hp) as [(q & _ & _ & Hu)|(flag & _ & Hd)];
    [congruence|].
  rewrite Hq in Hd.
  destruct (truthy (ns_get ns "select")).
  { unfold _handle_flag_query in Hd. destruct (truthy flag); [destruct flag; discriminate|].
    destruct (truthy (ns_get ns "row")); discriminate. }
  destruct (truthy (ns_get ns "date_start")) eqn:Hst;
    [|destruct (truthy (ns_get ns "daily")); discriminate].
  injection Hd as -> ->. split; [|exact Hev].
  destruct Hsv as [Hs|[Hs|Hs]]; [rewrite Hs in Hst; discriminate .. | exact Hs].
Qed.

Lemma range_query_values_witness :
  query_with_args no_flags ["--date-start=2020-01-01"; "--date-end=2020-01-02"] =
    DRangeQuery (VDate D_2020_01_01) (VDate D_2020_01_02) /\
  exists y m d, valid_ymd y m d /\ VDate D_2020_01_01 = VDate (PyDate (ymd2ord y m d) true).
Proof.
  assert (H : query_with_args no_flags ["--date-start=2020-01-01"; "--date-end=2020-01-02"] =
              DRangeQuery (VDate D_2020_01_01) (VDate D_2020_01_02))
    by (vm_compute; reflexivity).
  split; [exact H|].
  destruct (range_query_values _ _ _ _ H) as [Hs _]. exact Hs.
Defined.

(** The required-option rules of _create_parser, as the parse enforces
    them: when some argument starts with -s or --select, none starts with
    --daily and none starts with -r or --row_id, a successful parse has a
    --flag value.  An argument such as --row=5 does not count as a row
    argument here, since _is_present looks for the prefix --row_id. *)
Theorem select_without_row_needs_flag (args : list string) (ns : namespace) :
  _parse_cl_args args = ParseOk ns ->
  pre_daily args = false -> pre_query args = true -> pre_row args = false ->
  (exists q, ns_get ns "flag" = VStr q) \/ ns_get ns "flag" = VEmptyList.
Proof.
  intros Hp Hd Hq Hr.
  destruct (parse_cl_args_values args ns Hp) as [Hv Hreq].
  assert (Hfv := Hv "flag" ltac:(unfold arg_value_ok; simpl; left; reflexivity)).
  unfold arg_value_ok in Hfv. simpl in Hfv.
  destruct Hfv as [Hn | [He | Hs]]; [|right; exact He|left; exact Hs].
  exfalso. apply (Hreq "flag"); [|exact Hn].
  unfold required_of, _create_parser. rewrite Hd, Hq, Hr. reflexivity.
Qed.

Lemma select_without_row_needs_flag_witness :
  exists ns, _parse_cl_args ["--select"; "--flag=late"] = ParseOk ns /\
    ((exists q, ns_get ns "flag" = VStr q) \/ ns_get ns "flag" = VEmptyList).
Proof.
  exists (match _parse_cl_args ["--select"; "--flag=late"] with ParseOk ns => ns | _ => [] end).
  assert (Hp : _parse_cl_args ["--select"; "--flag=late"] =
               ParseOk (match _parse_cl_args ["--select"; "--flag=late"] with
                        | ParseOk ns => ns | _ => [] end))
    by (vm_compute; reflexivity).
  split; [exact Hp|].
  apply (select_without_row_needs_flag _ _ Hp); vm_compute; reflexivity.
Defined.

(** In row mode (an argument starting with -s or --select, one starting
    with -r or --row_id, none starting with --daily, -f or --flag) a
    successful parse has a row, a year and a service period, all set. *)
Theorem row_mode_parse_values (args : list string) (ns : namespace) :
  _parse_cl_args args = ParseOk ns ->
  pre_daily args = false -> pre_query args = true -> pre_row args = true ->
  pre_flag args = false ->
  (ns_get ns "row" = VEmptyList \/ exists r, ns_get ns "row" = VInt r) /\
  (ns_get ns "year" = VEmptyList \/
   exists y, 1 <= y <= 9999 /\ ns_get ns "year" = VDate (PyDate (ymd2ord y 1 1) true)) /\
  (ns_get ns "service_period" = VEmptyList \/ ns_get ns "service_period" = VInt 1 \/
   ns_get ns "service_period" = VInt 2 \/ ns_get ns "service_period" = VInt 3).
Proof.
  intros Hp Hd Hq Hr Hf.
  destruct (parse_cl_args_values args ns Hp) as [Hv Hreq].
  assert (Hrv := Hv "row" ltac:(unfold arg_value_ok; simpl; left; reflexivity)).
  assert (Hyv := Hv "year" ltac:(unfold arg_value_ok; simpl; left; reflexivity)).
  assert (Hpv := Hv "service_period" ltac:(unfold arg_value_ok; simpl; left; reflexivity)).
  unfold arg_value_ok in Hrv, Hyv, Hpv. simpl in Hrv, Hyv, Hpv.
  assert (Hreq' : forall d, required_of args d = true -> ns_get ns d <> VNone) by exact Hreq.
  unfold required_of, _create_parser in Hreq'. rewrite Hd, Hq, Hr, Hf in Hreq'.
  simpl in Hreq'.
  assert (H1 := Hreq' "row" eq_refl).
  assert (H2 := Hreq' "year" eq_refl).
  assert (H3 := Hreq' "service_period" eq_refl).
  destruct Hrv as [E|E]; [contradiction|].
  destruct Hyv as [E'|E']; [contradiction|].
  destruct Hpv as [E''|E'']; [contradiction|].
  auto.
Qed.

Lemma row_mode_parse_values_witness :
  exists ns, _parse_cl_args ["-s"; "-r"; "5"; "-y"; "2020"; "-p"; "2"] = ParseOk ns /\
    (ns_get ns "row" = VEmptyList \/ exists r, ns_get ns "row" = VInt r) /\
    (ns_get ns "year" = VEmptyList \/
     exists y, 1 <= y <= 9999 /\ ns_get ns "year" = VDate (PyDate (ymd2ord y 1 1) true)) /\
    (ns_get ns "service_period" = VEmptyList \/ ns_get ns "service_period" = VInt 1 \/
     ns_get ns "service_period" = VInt 2 \/ ns_get ns "service_period" = VInt 3).
Proof.
  exists (match _parse_cl_args ["-s"; "-r"; "5"; "-y"; "2020"; "-p"; "2"] with
          | ParseOk ns => ns | _ => [] end).
  assert (Hp : _parse_cl_args ["-s"; "-r"; "5"; "-y"; "2020"; "-p"; "2"] =
               ParseOk (match _parse_cl_args ["-s"; "-r"; "5"; "-y"; "2020"; "-p"; "2"] with
                        | ParseOk ns => ns | _ => [] end))
    by (vm_compute; reflexivity).
  split; [exact Hp|].
  apply (row_mode_parse_values _ _ Hp); vm_compute; reflexivity.
Defined.

Lemma digit_val_char (k : Z) : 0 <= k <= 9 -> digit_val (digit_char k) = Some k.
Proof.
  intros Hk.
  assert (k = 0 \/ k = 1 \/ k = 2 \/ k = 3 \/ k = 4 \/ k = 5 \/ k = 6 \/ k = 7 \/
          k = 8 \/ k = 9) as Hc by lia.
  repeat destruct Hc as [->|Hc]; [reflexivity ..|subst; reflexivity].
Qed.

Lemma re_year_pad4 (y : Z) (r : string) :
  0 <= y <= 9999 -> re_year (String.append (pad4 y) r) = [(y, r)].
Proof.
  intros Hy. unfold re_year, pad4. simpl.
  rewrite (digit_val_char (y / 1000)) by (Z.div_mod_to_equations; lia).
  rewrite (digit_val_char (y / 100 mod 10)) by (Z.div_mod_to_equations; lia).
  rewrite (digit_val_char (y / 10 mod 10)) by (Z.div_mod_to_equations; lia).
  rewrite (digit_val_char (y mod 10)) by (Z.div_mod_to_equations; lia).
  do 2 f_equal. f_equal. Z.div_mod_to_equations; lia.
Qed.

Lemma days_in_month_le_31 (y m : Z) : days_in_month y m <= 31.
Proof.
  unfold days_in_month.
  destruct m as [|p|p]; [lia| |lia].
  repeat (destruct p as [p|p|]; try lia); destruct (is_leap y); lia.
Qed.

Lemma re_ymd_iso_date (y m d : Z) :
  0 <= y <= 9999 -> 1 <= m <= 12 -> 1 <= d <= 31 ->
  re_ymd (iso_date y m d) = Some (y, m, d, EmptyString).
Proof.
  intros Hy Hm Hd. unfold re_ymd, iso_date. rewrite re_year_pad4 by exact Hy.
  assert (m = 1 \/ m = 2 \/ m = 3 \/ m = 4 \/ m = 5 \/ m = 6 \/ m = 7 \/ m = 8 \/
          m = 9 \/ m = 10 \/ m = 11 \/ m = 12) as Hmc by lia.
  assert (d = 1 \/ d = 2 \/ d = 3 \/ d = 4 \/ d = 5 \/ d = 6 \/ d = 7 \/ d = 8 \/
          d = 9 \/ d = 10 \/ d = 11 \/ d = 12 \/ d = 13 \/ d = 14 \/ d = 15 \/ d = 16 \/
          d = 17 \/ d = 18 \/ d = 19 \/ d = 20 \/ d = 21 \/ d = 22 \/ d = 23 \/ d = 24 \/
          d = 25 \/ d = 26 \/ d = 27 \/ d = 28 \/ d = 29 \/ d = 30 \/ d = 31) as Hdc by lia.
  clear Hm Hd.
  repeat destruct Hmc as [->|Hmc]; try subst m;
    repeat destruct Hdc as [->|Hdc]; try subst d; vm_compute; reflexivity.
Qed.

(** _service_date reads back what date.isoformat() writes: for every
    valid date, the YYYY-MM-DD text (zero-padded) is accepted and gives
    that date, as a datetime at midnight. *)
Theorem service_date_iso_roundtrip (y m d : Z) :
  valid_ymd y m d ->
  _service_date (iso_date y m d) = Some (VDate (PyDate (ymd2ord y m d) true)).
Proof.
  intros (Hy & Hm & Hd).
  assert (H31 := days_in_month_le_31 y m).
  unfold _service_date, strptime_ymd.
  rewrite re_ymd_iso_date by lia.
  unfold mk_date.
  replace ((1 <=? y) && (y <=? 9999) && (1 <=? m) && (m <=? 12) && (1 <=? d) &&
           (d <=? days_in_month y m)) with true
    by (symmetry; rewrite !andb_true_iff, !Z.leb_le; lia).
  reflexivity.
Qed.

Lemma service_date_iso_roundtrip_witness :
  valid_ymd 2020 2 29 /\
  _service_date (iso_date 2020 2 29) = Some (VDate (PyDate (ymd2ord 2020 2 29) true)).
Proof.
  assert (H : valid_ymd 2020 2 29)
    by (unfold valid_ymd; replace (days_in_month 2020 2) with 29 by reflexivity; lia).
  split; [exact H | exact (service_date_iso_roundtrip 2020 2 29 H)].
Defined.

(** _service_year reads back a four-digit zero-padded year: for every
    year from 1 to 9999 the text gives 1 January of that year. *)
Theorem service_year_roundtrip (y : Z) :
  1 <= y <= 9999 -> _service_year (pad4 y) = Some (VDate (PyDate (ymd2ord y 1 1) true)).
Proof.
  intros Hy. unfold _service_year, strptime_y.
  replace (pad4 y) with (String.append (pad4 y) EmptyString) by (unfold pad4; reflexivity).
  rewrite re_year_pad4 by lia. simpl. unfold mk_date.
  replace ((1 <=? y) && (y <=? 9999) && (1 <=? 1) && (1 <=? 12) && (1 <=? 1) &&
           (1 <=? days_in_month y 1)) with true
    by (symmetry; rewrite !andb_true_iff, !Z.leb_le; cbn; lia).
  reflexivity.
Qed.

Lemma service_year_roundtrip_witness :
  1 <= 20 <= 9999 /\ _service_year (pad4 20) = Some (VDate (PyDate (ymd2ord 20 1 1) true)).
Proof.
  assert (H : 1 <= 20 <= 9999) by lia.
  split; [exact H | exact (service_year_roundtrip 20 H)].
Defined.

(** In select mode a flag whose id is 0 is never queried: the id replaces
    args.flag, _handle_flag_query tests it for truth, and 0 is false, so
    the call falls through to the row query (when a nonzero --row is set)
    or to doing nothing. *)
Theorem flag_id_zero_not_queried (lookup : flag_lookup) (args : list string)
    (ns : namespace) (q : string) :
  _parse_cl_args args = ParseOk ns -> ns_get ns "flag" = VStr q -> q <> EmptyString ->
  lookup q = Some 0 -> truthy (ns_get ns "select") = true ->
  query_with_args lookup args =
    if truthy (ns_get ns "row") then
      DRowQuery "service_periods" (ns_get ns "row") (ns_get ns "year")
                (ns_get ns "service_period")
    else DSelectNothing.
Proof.
  intros Hp Hf Hq Hl Hs. unfold query_with_args. rewrite Hp, Hf.
  assert (Ht : truthy (VStr q) = true).
  { simpl. destruct (String.eqb_spec q ""); [contradiction | reflexivity]. }
  rewrite Ht, Hl, Hs. reflexivity.
Qed.

Definition flag_zero_lookup : flag_lookup := fun _ => Some 0.

Lemma flag_id_zero_not_queried_witness :
  query_with_args flag_zero_lookup ["-s"; "-f"; "X"] = DSelectNothing.
Proof.
  set (ns := match _parse_cl_args ["-s"; "-f"; "X"] with ParseOk ns => ns | _ => [] end).
  assert (Hp : _parse_cl_args ["-s"; "-f"; "X"] = ParseOk ns) by (vm_compute; reflexivity).
  rewrite (flag_id_zero_not_queried flag_zero_lookup ["-s"; "-f"; "X"] ns "X" Hp);
    [| vm_compute; reflexivity | discriminate | reflexivity | vm_compute; reflexivity].
  vm_compute. reflexivity.
Defined.
